(** * Split learning (algorithms/split_learning.py): gradient loading,
      feature extraction, the client-side training loop and the cut-layer
      backward hook.

    The Python code is embedded shallowly.  Tensors, examples and labels are
    opaque payloads; Python exceptions are values of [exn]; the attributes of
    the [Algorithm] object that the code reads and writes are fields of a
    record threaded through a state-and-exception monad; calls into the
    deep-learning framework are recorded as events of a trace. *)

From stdpp Require Import base option list gmap strings.
From Stdlib Require Import ZArith Lia.
From Stdlib Require Import Ascii.

Local Open Scope Z_scope.

(** ** Python values and exceptions *)

Module Py.

Inductive exn : Set :=
| IndexError
| KeyError
| ValueError.

Inductive result (A : Type) : Type :=
| Ok (a : A)
| Raise (e : exn).

Arguments Ok {A} a.
Arguments Raise {A} e.

(** [l[i]] on a Python list: indices [-len l .. len l - 1] are valid, a
    negative index counts from the end, anything else raises IndexError. *)
Definition getitem {A : Type} (l : list A) (i : Z) : result A :=
  let n := Z.of_nat (length l) in
  let j := if i <? 0 then i + n else i in
  if (j <? 0) || (n <=? j) then Raise IndexError
  else match l !! Z.to_nat j with
       | Some x => Ok x
       | None => Raise IndexError
       end.

(** [len(l)] as a Python integer. *)
Definition len {A : Type} (l : list A) : Z := Z.of_nat (length l).

(** [d[k]] on a dict. *)
Definition dict_getitem {V : Type} (d : gmap string V) (k : string) : result V :=
  match d !! k with
  | Some v => Ok v
  | None => Raise KeyError
  end.

End Py.

Import Py.

(** ** A state-and-exception monad

    A computation runs on a state [S]; an exception aborts the rest of the
    computation and keeps the state reached so far, as in Python. *)

Definition M (S A : Type) : Type := S → result A * S.

Definition ret {S A : Type} (a : A) : M S A := λ s, (Ok a, s).

Definition bind {S A B : Type} (m : M S A) (k : A → M S B) : M S B :=
  λ s, match m s with
       | (Ok a, s') => k a s'
       | (Raise e, s') => (Raise e, s')
       end.

Definition lift {S A : Type} (r : result A) : M S A := λ s, (r, s).
Definition get {S : Type} : M S S := λ s, (Ok s, s).
Definition modify {S : Type} (f : S → S) : M S unit := λ s, (Ok tt, f s).

Declare Scope py_scope.
Delimit Scope py_scope with py.
Notation "x <- m ;; k" := (bind m (λ x, k))
  (at level 100, m at next level, right associativity) : py_scope.
Notation "m ;;; k" := (bind m (λ _, k))
  (at level 100, right associativity) : py_scope.

(** ** Datasets and data loaders *)

(** The [torch.utils.data.Dataset] protocol: [__len__] and [__getitem__]. *)
Class Dataset (Sample D : Type) : Type := {
  ds_len : D → Z;
  ds_getitem : D → Z → result Sample
}.

(** A Python list of samples is a dataset. *)
Global Instance list_dataset {Sample : Type} : Dataset Sample (list Sample) := {
  ds_len := len;
  ds_getitem := getitem
}.

(** [class FeatureDataset]: holds the dataset it was constructed from. *)
Record FeatureDataset (D : Type) : Type := mkFeatureDataset { dataset : D }.
Arguments mkFeatureDataset {D} dataset.
Arguments dataset {D} _.

(** [FeatureDataset.__len__] *)
Definition FeatureDataset_len {Image Label D : Type} `{!Dataset (Image * Label) D}
    (self : FeatureDataset D) : Z :=
  ds_len (dataset self).

(** [FeatureDataset.__getitem__]: unpacks [self.dataset[item]] into
    [image, label] and returns the two as a tuple. *)
Definition FeatureDataset_getitem {Image Label D : Type} `{!Dataset (Image * Label) D}
    (self : FeatureDataset D) (item : Z) : result (Image * Label) :=
  match ds_getitem (dataset self) item with
  | Ok (image, label) => Ok (image, label)
  | Raise e => Raise e
  end.

Global Instance feature_dataset {Image Label D : Type} `{!Dataset (Image * Label) D} :
    Dataset (Image * Label) (FeatureDataset D) := {
  ds_len := FeatureDataset_len;
  ds_getitem := FeatureDataset_getitem
}.

(** The samples a dataset yields at the indices [0 .. n-1]. *)
Definition samples {Sample D : Type} `{!Dataset Sample D} (d : D) (n : nat) :
    list (result Sample) :=
  (λ i : nat, ds_getitem d (Z.of_nat i)) <$> seq 0 n.

(** torch's [BatchSampler] with [drop_last=False]: indices are appended to
    the current batch, a full batch is yielded and a new one started, and a
    non-empty rest is yielded at the end. *)
Fixpoint batch_sampler (batch_size : nat) (batch : list Z) (sampler : list Z) :
    list (list Z) :=
  match sampler with
  | [] => match batch with [] => [] | _ => [batch] end
  | idx :: rest =>
      let batch := batch ++ [idx] in
      if (length batch =? batch_size)%nat
      then batch :: batch_sampler batch_size [] rest
      else batch_sampler batch_size batch rest
  end.

(** Fetching one batch: [dataset[i]] for each index, collated into the
    batch of examples and the batch of labels. *)
Fixpoint fetch {X Y D : Type} `{!Dataset (X * Y) D} (d : D) (idxs : list Z) :
    result (list X * list Y) :=
  match idxs with
  | [] => Ok ([], [])
  | i :: rest =>
      match ds_getitem d i with
      | Raise e => Raise e
      | Ok (x, y) =>
          match fetch d rest with
          | Raise e => Raise e
          | Ok (xs, ys) => Ok (x :: xs, y :: ys)
          end
      end
  end.

(** A data loader is iterated once; each batch is fetched when the iteration
    reaches it, so a failing fetch surfaces at that iteration. *)
Definition data_loader (X Y : Type) : Type := list (result (list X * list Y)).

(** [torch.utils.data.DataLoader(dataset, batch_size=..., sampler=...)]: the
    constructor rejects a batch size that is not positive. *)
Definition DataLoader {X Y D : Type} `{!Dataset (X * Y) D}
    (d : D) (batch_size : Z) (sampler : list Z) : result (data_loader X Y) :=
  if batch_size <=? 0 then Raise ValueError
  else Ok (fetch d <$> batch_sampler (Z.to_nat batch_size) [] sampler).

(** ** The split-learning algorithm object *)

Section SplitLearning.

Context {Tensor X Y Feature D : Type} `{!Dataset (X * Y) D}.

(** Calls into the framework, in the order they are made.  [Backward]
    records what the cut-layer hook found in [self.cut_layer_gradients] when
    the backward pass called it, and the gradient the backward pass went on
    with below the cut layer. *)
Inductive event : Type :=
| ModelEval
| ModelTrain
| RegisterBackwardHook (cut_layer : string)
| ZeroGrad (batch_id : nat)
| Forward (batch_id : nat) (examples : list X)
| LossCriterion (batch_id : nat) (labels : list Y)
| Backward (batch_id : nat) (loaded : option Tensor) (propagated : Tensor)
| OptimizerStep (batch_id : nat)
| TrainerTrain (trainset : FeatureDataset D) (sampler : list Z)
    (cut_layer : option string).

(** The attributes of [Algorithm] the code reads and writes, with the trace
    of framework calls made on its behalf. *)
Record Algorithm : Type := mkAlgorithm {
  gradients_list : list Tensor;
  cut_layer_gradients : option Tensor;
  trace : list event
}.

Definition set_gradients_list (gl : list Tensor) (self : Algorithm) : Algorithm :=
  {| gradients_list := gl;
     cut_layer_gradients := cut_layer_gradients self;
     trace := trace self |}.

Definition set_cut_layer_gradients (g : option Tensor) (self : Algorithm) : Algorithm :=
  {| gradients_list := gradients_list self;
     cut_layer_gradients := g;
     trace := trace self |}.

Definition log (e : event) (self : Algorithm) : Algorithm :=
  {| gradients_list := gradients_list self;
     cut_layer_gradients := cut_layer_gradients self;
     trace := trace self ++ [e] |}.

Definition emit (e : event) : M Algorithm unit := modify (log e).

(** What the algorithm is given by its surroundings: the model (its named
    layers, its partial forward pass on a batch), the gradients autograd
    computes at the cut layer in the backward pass of a batch (with respect
    to the layer's input and to its output), the trainer's optional
    [train_loader], and [Config().trainer.batch_size]. *)
Record Env : Type := mkEnv {
  layerdict : gmap string unit;
  forward_to : list X → string → list Feature;
  autograd : nat → list X → list Y → Tensor * Tensor;
  train_loader : option (Z → D → list Z → bool → data_loader X Y);
  config_batch_size : Z
}.

Variable env : Env.

(** [load_gradients]: [deepcopy] yields a list of equal value; the object
    identities are treated in [Module Store] below. *)
Definition load_gradients (gradients : list Tensor) : M Algorithm unit :=
  modify (set_gradients_list gradients).

(** *** The cut-layer hook *)

(** What a call of the hook leaves behind: the final binding of its local
    name [grad_output] and the value it returns to the framework. *)
Record HookExit : Type := mkHookExit {
  local_grad_output : Tensor;
  returned : option Tensor
}.

(** [apply_gradients]: the assignment rebinds the parameter [grad_output]
    inside the call; the body has no [return], so the call returns [None]. *)
Definition apply_gradients (self : Algorithm) (module : string)
    (grad_input grad_output : Tensor) : HookExit :=
  let grad_output :=
    match cut_layer_gradients self with
    | Some g => g
    | None => grad_output
    end in
  {| local_grad_output := grad_output; returned := None |}.

(** [register_backward_hook] in torch: the hook is called with the computed
    gradients; a returned value is used in place of [grad_input] in what
    follows, and [None] leaves the computed gradient in place. *)
Definition run_backward_hook (hook : string → Tensor → Tensor → HookExit)
    (module : string) (grad_input grad_output : Tensor) : Tensor :=
  match returned (hook module grad_input grad_output) with
  | Some g => g
  | None => grad_input
  end.

(** [loss.backward()] of one batch, as far as the cut layer is concerned. *)
Definition backward (cut_layer : string) (batch_id : nat)
    (examples : list X) (labels : list Y) : M Algorithm unit :=
  (self <- get ;;
   let '(grad_input, grad_output) := autograd env batch_id examples labels in
   emit (Backward batch_id (cut_layer_gradients self)
           (run_backward_hook (apply_gradients self) cut_layer
              grad_input grad_output)))%py.

(** *** The training loop *)

(** The index update after the optimizer step (lines 143-144). *)
Definition next_index (self : Algorithm) (gradients_index : Z) : Z :=
  if gradients_index <? len (gradients_list self) - 1
  then gradients_index + 1
  else gradients_index.

(** The body of the batch loop of [complete_train]; returns the new value of
    the local [gradients_index]. *)
Definition train_batch (cut_layer : string) (batch_id : nat)
    (examples : list X) (labels : list Y) (gradients_index : Z) :
    M Algorithm Z :=
  (emit (ZeroGrad batch_id) ;;;
   emit (Forward batch_id examples) ;;;
   emit (LossCriterion batch_id labels) ;;;
   backward cut_layer batch_id examples labels ;;;
   emit (OptimizerStep batch_id) ;;;
   self <- get ;;
   let gradients_index := next_index self gradients_index in
   g <- lift (getitem (gradients_list self) gradients_index) ;;
   modify (set_cut_layer_gradients (Some g)) ;;;
   ret gradients_index)%py.

(** [for batch_id, (examples, labels) in enumerate(data_loader)]. *)
Fixpoint batch_loop (cut_layer : string) (loader : data_loader X Y)
    (batch_id : nat) (gradients_index : Z) : M Algorithm Z :=
  match loader with
  | [] => ret gradients_index
  | item :: rest =>
      (batch <- lift item ;;
       let '(examples, labels) := batch in
       gradients_index <-
         train_batch cut_layer batch_id examples labels gradients_index ;;
       batch_loop cut_layer rest (S batch_id) gradients_index)%py
  end.

(** The loader [complete_train] builds. *)
Definition train_data_loader (batch_size : Z) (dataset : D) (sampler : list Z) :
    result (data_loader X Y) :=
  match train_loader env with
  | Some custom => Ok (custom batch_size dataset sampler true)
  | None => DataLoader dataset batch_size sampler
  end.

(** [complete_train]; returns the final value of [gradients_index]. *)
Definition complete_train (config : gmap string Z) (dataset : D)
    (sampler : list Z) (cut_layer : string) : M Algorithm Z :=
  (_ <- lift (dict_getitem (layerdict env) cut_layer) ;;
   emit (RegisterBackwardHook cut_layer) ;;;
   emit ModelTrain ;;;
   batch_size <- lift (dict_getitem config "batch_size") ;;
   loader <- lift (train_data_loader batch_size dataset sampler) ;;
   let gradients_index := 1 in
   self <- get ;;
   g <- lift (getitem (gradients_list self) 0) ;;
   modify (set_cut_layer_gradients (Some g)) ;;;
   batch_loop cut_layer loader 0%nat gradients_index)%py.

(** *** Feature extraction *)

(** [for i in np.arange(logits.shape[0])]: one pair per row of [logits]. *)
Fixpoint append_rows (logits : list Feature) (targets : list Y) (rows : list nat)
    (feature_dataset : list (Feature * Y)) : result (list (Feature * Y)) :=
  match rows with
  | [] => Ok feature_dataset
  | i :: rest =>
      match getitem logits (Z.of_nat i), getitem targets (Z.of_nat i) with
      | Ok f, Ok t => append_rows logits targets rest (feature_dataset ++ [(f, t)])
      | Raise e, _ => Raise e
      | _, Raise e => Raise e
      end
  end.

(** [for inputs, targets, *__ in data_loader]. *)
Fixpoint extract_loop (cut_layer : string) (loader : data_loader X Y)
    (feature_dataset : list (Feature * Y)) : result (list (Feature * Y)) :=
  match loader with
  | [] => Ok feature_dataset
  | Raise e :: _ => Raise e
  | Ok (inputs, targets) :: rest =>
      let logits := forward_to env inputs cut_layer in
      match append_rows logits targets (seq 0 (length logits)) feature_dataset with
      | Raise e => Raise e
      | Ok feature_dataset => extract_loop cut_layer rest feature_dataset
      end
  end.

(** The loader [extract_features] builds. *)
Definition extract_data_loader (dataset : D) (sampler : list Z) :
    result (data_loader X Y) :=
  match train_loader env with
  | Some custom => Ok (custom 1 dataset sampler true)
  | None => DataLoader dataset (config_batch_size env) sampler
  end.

(** [extract_features] *)
Definition extract_features (dataset : D) (sampler : list Z) (cut_layer : string) :
    M Algorithm (list (Feature * Y)) :=
  (emit ModelEval ;;;
   loader <- lift (extract_data_loader dataset sampler) ;;
   lift (extract_loop cut_layer loader []))%py.

(** [train]: hands the wrapped training set to the trainer. *)
Definition train (trainset : D) (sampler : list Z) (cut_layer : option string) :
    M Algorithm unit :=
  emit (TrainerTrain (mkFeatureDataset trainset) sampler cut_layer).

End SplitLearning.

Arguments Algorithm : clear implicits.
Arguments event : clear implicits.
Arguments Env : clear implicits.
Arguments HookExit : clear implicits.

(** ** Reading a trace *)

Section Traces.

Context {Tensor X Y D : Type}.

(** The backward passes of a trace: the batch and the gradient the hook
    found loaded. *)
Definition applied (tr : list (event Tensor X Y D)) : list (nat * option Tensor) :=
  omap (λ e, match e with
             | Backward b loaded _ => Some (b, loaded)
             | _ => None
             end) tr.

(** The events that belong to the training of a batch. *)
Definition is_batch_event (e : event Tensor X Y D) : bool :=
  match e with
  | ZeroGrad _ | Forward _ _ | LossCriterion _ _ | Backward _ _ _
  | OptimizerStep _ => true
  | _ => false
  end.

Definition batch_events (tr : list (event Tensor X Y D)) :
    list (event Tensor X Y D) :=
  filter (λ e, is_batch_event e = true) tr.

(** The index into [gradients_list] of the gradient that is loaded while
    batch [b] is trained, for a list of [n >= 2] gradients: [0] for the first
    batch, the clamped [b + 1] afterwards (see [complete_train_schedule]). *)
Definition loaded_index (n : Z) (b : nat) : Z :=
  match b with
  | O => 0
  | S _ => Z.min (Z.of_nat b + 1) (n - 1)
  end.

End Traces.

(** ** Object identities: [load_gradients] on a store

    [deepcopy] matters only where objects are shared, so here the Python
    objects live in a store.  A gradient sequence is a list object whose
    items are references to tensor objects; both kinds of object can be
    mutated in place by whoever holds a reference. *)

Module Store.

Definition loc : Type := nat.

Inductive obj (Tensor : Type) : Type :=
| OTensor (data : Tensor)
| OList (items : list loc).

Arguments OTensor {Tensor} data.
Arguments OList {Tensor} items.

Section Store.

Context {Tensor : Type}.

(** The algorithm object: its attributes hold references. *)
Record Algorithm : Type := mkAlgorithm {
  gradients_list : loc;
  cut_layer_gradients : option loc
}.

(** A new object gets a location not in use. *)
Definition alloc (h : gmap loc (obj Tensor)) (o : obj Tensor) :
    gmap loc (obj Tensor) * loc :=
  let l := fresh (dom h) in (<[l := o]> h, l).

(** [deepcopy(x, memo)] of a list item: an object already copied in this
    call is looked up in the memo, a tensor is cloned into a new object and
    entered into the memo. *)
Definition deepcopy_item (h : gmap loc (obj Tensor)) (memo : gmap loc loc) (l : loc) :
    option (gmap loc (obj Tensor) * gmap loc loc * loc) :=
  match memo !! l with
  | Some l' => Some (h, memo, l')
  | None =>
      match h !! l with
      | Some (OTensor data) =>
          let '(h', l') := alloc h (OTensor data) in
          Some (h', <[l := l']> memo, l')
      | _ => None
      end
  end.

(** [for a in x: y.append(deepcopy(a, memo))] *)
Fixpoint deepcopy_items (h : gmap loc (obj Tensor)) (memo : gmap loc loc)
    (items : list loc) :
    option (gmap loc (obj Tensor) * gmap loc loc * list loc) :=
  match items with
  | [] => Some (h, memo, [])
  | a :: rest =>
      '(h1, memo1, a') ← deepcopy_item h memo a;
      '(h2, memo2, rest') ← deepcopy_items h1 memo1 rest;
      Some (h2, memo2, a' :: rest')
  end.

(** [deepcopy(x)] of a list of tensors: the new list is created empty and
    entered into the memo, then filled with the copies of the items.  [None]
    stands for an argument that is not such a list. *)
Definition deepcopy (h : gmap loc (obj Tensor)) (x : loc) :
    option (gmap loc (obj Tensor) * loc) :=
  match h !! x with
  | Some (OList items) =>
      let '(h1, y) := alloc h (OList []) in
      '(h2, _, items') ← deepcopy_items h1 {[x := y]} items;
      Some (<[y := OList items']> h2, y)
  | _ => None
  end.

(** [load_gradients]: [self.gradients_list = deepcopy(gradients)]. *)
Definition load_gradients (gradients : loc)
    (st : gmap loc (obj Tensor) * Algorithm) :
    option (gmap loc (obj Tensor) * Algorithm) :=
  let '(h, self) := st in
  '(h', copy) ← deepcopy h gradients;
  Some (h', {| gradients_list := copy;
               cut_layer_gradients := cut_layer_gradients self |}).

(** The value of a tensor object, and of a list of tensors. *)
Definition tensor_at (h : gmap loc (obj Tensor)) (l : loc) : option Tensor :=
  match h !! l with
  | Some (OTensor data) => Some data
  | _ => None
  end.

Definition list_at (h : gmap loc (obj Tensor)) (l : loc) : option (list Tensor) :=
  match h !! l with
  | Some (OList items) => mapM (tensor_at h) items
  | _ => None
  end.

End Store.

(** A store for evaluation: the caller's list [[7, 8]] at location 2,
    another list [[9]] of the caller at location 4, and at location 5 the
    empty list that [__init__] puts into [self.gradients_list]. *)
Definition demo_heap : gmap loc (obj Z) :=
  {[ 0%nat := OTensor 7; 1%nat := OTensor 8; 2%nat := OList [0%nat; 1%nat];
     3%nat := OTensor 9; 4%nat := OList [3%nat]; 5%nat := OList [] ]}.

Definition demo_algorithm : Algorithm :=
  {| gradients_list := 5%nat; cut_layer_gradients := None |}.

End Store.

(** ** The all-inclusive sampler (plato/samplers/all_inclusive.py) *)

Module AllInclusive.

(** [range(n)]: the integers [0 .. n-1], none when [n <= 0]. *)
Definition range (n : Z) : list Z := seqZ 0 n.

(** Which of the optional attributes [Config().trainer] has. *)
Record TrainerConfig : Type := mkTrainerConfig {
  use_mindspore : bool;
  use_tensorflow : bool
}.

Record Sampler : Type := mkSampler {
  client_id : Z;
  all_inclusive : list Z
}.

(** [__init__(dataset, client_id)], with [dataset.num_train_examples()]
    given. *)
Definition init (num_train_examples : Z) (client_id : Z) : Sampler :=
  {| client_id := client_id; all_inclusive := range num_train_examples |}.

(** What [get] returns: a plain list of indices, or torch's
    [SubsetRandomSampler] over a sequence of indices. *)
Inductive sampler_object : Type :=
| IndexList (indices : list Z)
| SubsetRandomSampler (indices : list Z).

(** [get] *)
Definition get (config : TrainerConfig) (self : Sampler) : sampler_object :=
  if use_mindspore config then IndexList (all_inclusive self)
  else if use_tensorflow config then IndexList (all_inclusive self)
  else SubsetRandomSampler (all_inclusive self).

(** [trainset_size] *)
Definition trainset_size (self : Sampler) : Z := len (all_inclusive self).

(** [indices[i] for i in positions] *)
Fixpoint getitems (indices : list Z) (positions : list Z) : result (list Z) :=
  match positions with
  | [] => Ok []
  | i :: rest =>
      match getitem indices i with
      | Raise e => Raise e
      | Ok x =>
          match getitems indices rest with
          | Raise e => Raise e
          | Ok xs => Ok (x :: xs)
          end
      end
  end.

(** The indices a data loader draws from the object: a list yields its
    items; [SubsetRandomSampler] yields [indices[i]] for [i] in
    [torch.randperm(len(indices))], the random permutation being given. *)
Definition iterate (randperm : list Z) (s : sampler_object) : result (list Z) :=
  match s with
  | IndexList indices => Ok indices
  | SubsetRandomSampler indices => getitems indices randperm
  end.

End AllInclusive.

(** ** The HuggingFace data source (datasources/huggingface.py) *)

Module HuggingFace.

Inductive exn : Set :=
| IndexError
| AssertionError.

Inductive result (A : Type) : Type :=
| Ok (a : A)
| Raise (e : exn).

Arguments Ok {A} a.
Arguments Raise {A} e.

(** The two splits [__init__] loads. *)
Record DataSource (Row : Type) : Type := mkDataSource {
  train_set : list Row;
  test_set : list Row
}.

Arguments mkDataSource {Row} train_set test_set.
Arguments train_set {Row} _.
Arguments test_set {Row} _.

Section DataSource.

Context {Row : Type}.

Definition num_train_examples (self : DataSource Row) : Z := len (train_set self).

Definition num_test_examples (self : DataSource Row) : Z := len (test_set self).

(** [get_train_set]: prints the first row, then [assert False], then the
    [return].  [debug] is Python's [__debug__] (false under [-O], where
    assert statements are not executed); the rows printed so far are the
    state. *)
Definition get_train_set (debug : bool) (self : DataSource Row)
    (stdout : list Row) : result (list Row) * list Row :=
  match Py.getitem (train_set self) 0 with
  | Py.Raise _ => (Raise IndexError, stdout)
  | Py.Ok row =>
      let stdout := stdout ++ [row] in
      if debug then (Raise AssertionError, stdout)
      else (Ok (train_set self), stdout)
  end.

(** [get_test_set] *)
Definition get_test_set (self : DataSource Row) : list Row := test_set self.

End DataSource.

End HuggingFace.

(** ** The class list of the Kinetics data source
       (plato/datasources/multimodal/kinetics.py, [extract_data_classes])

    A text is a string of characters, of which the code tells apart only
    the line breaks, [_] and the space.  The three files the method touches
    are the state.  A text file is given by the text its bytes decode to, or
    cannot be decoded; whether a text can be encoded for writing depends on
    the encoding in force and is a parameter.  Failures of the operating
    system (permissions, a full disk) are not modelled. *)

Module Kinetics.

Local Open Scope string_scope.

Inductive exn : Set :=
| SystemExit
| JSONDecodeError
| UnicodeDecodeError
| UnicodeEncodeError
| KeyError
| TypeError
| AttributeError.

Inductive result (A : Type) : Type :=
| Ok (a : A)
| Raise (e : exn).

Arguments Ok {A} a.
Arguments Raise {A} e.

(** A JSON document as [json.load] returns it; an object keeps the order
    of its keys.  Numbers are not read by this code. *)
#[warnings="-register-all"]
Inductive json : Type :=
| JNull
| JBool (b : bool)
| JNumber
| JString (s : string)
| JArray (items : list json)
| JObject (fields : list (string * json)).

(** An information file: its bytes cannot be decoded, or its text is not a
    JSON document, or it is one. *)
Inductive info_file : Type :=
| Unreadable
| Malformed
| Document (doc : json).

(** [json.load(file)] *)
Definition json_load (f : info_file) : result json :=
  match f with
  | Unreadable => Raise UnicodeDecodeError
  | Malformed => Raise JSONDecodeError
  | Document doc => Ok doc
  end.

(** A text file: its bytes cannot be decoded, or decode to [content]. *)
Inductive text_file : Type :=
| Undecodable
| Text (content : string).

(** The files: [None] for a path that does not exist. *)
Record files : Type := mkFiles {
  data_classes_file : option text_file;
  train_info_data : option info_file;
  val_info_data : option info_file
}.

Definition LF : Ascii.ascii := "010"%char.
Definition CR : Ascii.ascii := "013"%char.

(** [s.replace(old, new)] for a pattern [old] of one character. *)
Fixpoint replace (old : Ascii.ascii) (new : string) (s : string) : string :=
  match s with
  | EmptyString => EmptyString
  | String c s' =>
      if Ascii.eqb c old then new ++ replace old new s'
      else String c (replace old new s')
  end.

(** Reading in text mode: [\r\n] and [\r] become [\n]. *)
Fixpoint translate_newlines (s : string) : string :=
  match s with
  | EmptyString => EmptyString
  | String c s' =>
      if Ascii.eqb c CR then
        String LF
          match s' with
          | EmptyString => EmptyString
          | String c2 s'' =>
              if Ascii.eqb c2 LF then translate_newlines s''
              else translate_newlines s'
          end
      else String c (translate_newlines s')
  end.

(** Cutting a text into lines, each with its [\n]; [line] is the part of
    the current line read so far. *)
Fixpoint split_lines (line : string) (s : string) : list string :=
  match s with
  | EmptyString => match line with EmptyString => [] | _ => [line] end
  | String c s' =>
      if Ascii.eqb c LF then (line ++ String LF EmptyString) :: split_lines EmptyString s'
      else split_lines (line ++ String c EmptyString) s'
  end.

(** [file.readlines()] *)
Definition readlines (content : string) : list string :=
  split_lines EmptyString (translate_newlines content).

(** [d[key]] for a string key on a JSON value. *)
Fixpoint dict_get (fields : list (string * json)) (key : string) : result json :=
  match fields with
  | [] => Raise KeyError
  | (k, v) :: rest => if String.eqb k key then Ok v else dict_get rest key
  end.

Definition subscript (v : json) (key : string) : result json :=
  match v with
  | JObject fields => dict_get fields key
  | _ => Raise TypeError
  end.

(** [label.replace("_", " ")] on a JSON value. *)
Definition label_class_name (label : json) : result string :=
  match label with
  | JString s => Ok (replace "_" " " s)
  | _ => Raise AttributeError
  end.

(** [class_name not in classes_container] *)
Definition not_in (class_name : string) (classes_container : list string) : bool :=
  negb (existsb (String.eqb class_name) classes_container).

(** The class name of the video stored under [key]:
    [videos_data[key]["annotations"]["label"].replace("_", " ")]. *)
Definition class_name_of (videos_data : list (string * json)) (key : string) :
    result string :=
  match dict_get videos_data key with
  | Raise e => Raise e
  | Ok metadata =>
      match subscript metadata "annotations" with
      | Raise e => Raise e
      | Ok annotations =>
          match subscript annotations "label" with
          | Raise e => Raise e
          | Ok label => label_class_name label
          end
      end
  end.

(** The body of [for key in videos_data.keys()] for one key. *)
Definition add_video_class (videos_data : list (string * json)) (key : string)
    (classes_container : list string) : result (list string) :=
  match class_name_of videos_data key with
  | Raise e => Raise e
  | Ok class_name =>
      if not_in class_name classes_container
      then Ok (classes_container ++ [class_name])%list
      else Ok classes_container
  end.

Fixpoint add_video_classes (videos_data : list (string * json)) (keys : list string)
    (classes_container : list string) : result (list string) :=
  match keys with
  | [] => Ok classes_container
  | key :: rest =>
      match add_video_class videos_data key classes_container with
      | Raise e => Raise e
      | Ok classes_container => add_video_classes videos_data rest classes_container
      end
  end.

(** One pass of [for list_path in [train, val]]. *)
Definition add_file_classes (f : info_file) (classes_container : list string) :
    result (list string) :=
  match json_load f with
  | Raise e => Raise e
  | Ok (JObject videos_data) =>
      add_video_classes videos_data (videos_data.*1) classes_container
  | Ok _ => Raise AttributeError
  end.

(** What the final loop writes: each class name followed by [\n]. *)
Fixpoint written (classes_container : list string) : string :=
  match classes_container with
  | [] => EmptyString
  | class_name :: rest => class_name ++ String LF EmptyString ++ written rest
  end.

(** The final loop, on a file opened for writing: [file.write(class_name)]
    raises UnicodeEncodeError for a name that cannot be encoded, before
    anything of that name is written; what was written before stays in the
    file when it is closed.  [content] is what has been written so far. *)
Fixpoint write_names (encodable : string → bool) (classes_container : list string)
    (content : string) : result unit * string :=
  match classes_container with
  | [] => (Ok tt, content)
  | class_name :: rest =>
      if encodable class_name
      then write_names encodable rest (content ++ class_name ++ String LF EmptyString)
      else (Raise UnicodeEncodeError, content)
  end.

(** [extract_data_classes] *)
Definition extract_data_classes (encodable : string → bool) (fs : files) :
    result (list string) * files :=
  match data_classes_file fs with
  | Some Undecodable => (Raise UnicodeDecodeError, fs)
  | Some (Text content) =>
      (Ok (replace LF EmptyString <$> readlines content), fs)
  | None =>
      match train_info_data fs, val_info_data fs with
      | Some train, Some val =>
          match add_file_classes train [] with
          | Raise e => (Raise e, fs)
          | Ok classes_container =>
              match add_file_classes val classes_container with
              | Raise e => (Raise e, fs)
              | Ok classes_container =>
                  let '(r, content) :=
                    write_names encodable classes_container EmptyString in
                  let fs' := {| data_classes_file := Some (Text content);
                                train_info_data := train_info_data fs;
                                val_info_data := val_info_data fs |} in
                  match r with
                  | Raise e => (Raise e, fs')
                  | Ok _ => (Ok classes_container, fs')
                  end
              end
          end
      | _, _ => (Raise SystemExit, fs)
      end
  end.

(** Whether the character [a] occurs in [s]. *)
Fixpoint has_char (a : Ascii.ascii) (s : string) : bool :=
  match s with
  | EmptyString => false
  | String c s' => Ascii.eqb c a || has_char a s'
  end.

(** Two information files for evaluation. *)
Definition video (label : string) : json :=
  JObject [("annotations", JObject [("label", JString label); ("segment", JArray [JNumber; JNumber])]);
           ("duration", JNumber)].

Definition demo_files : files :=
  {| data_classes_file := None;
     train_info_data := Some (Document (JObject
       [("v1", video "air_drumming"); ("v2", video "abseiling");
        ("v3", video "air_drumming")]));
     val_info_data := Some (Document (JObject
       [("v4", video "zumba"); ("v5", video "abseiling")])) |}.

(** An encoding that takes every text, and one that takes only the texts
    without a byte above 127. *)
Definition any_text (s : string) : bool := true.

Fixpoint plain_ascii (s : string) : bool :=
  match s with
  | EmptyString => true
  | String (Ascii.Ascii _ _ _ _ _ _ _ high) s' => negb high && plain_ascii s'
  end.

(** Information files with a label that is not plain ASCII. *)
Definition demo_files_accent : files :=
  {| data_classes_file := None;
     train_info_data := Some (Document (JObject
       [("v1", video "abseiling"); ("v2", video (String "233"%char "tude"));
        ("v3", video "zumba")]));
     val_info_data := Some (Document (JObject [])) |}.

End Kinetics.

(** ** Concrete instances, for evaluating the definitions *)

Module Demo.

Definition env : Env Z Z Z Z (list (Z * Z)) :=
  {| layerdict := {["cut" := tt]};
     forward_to := λ inputs _, inputs;
     autograd := λ batch_id _ _, (100 + Z.of_nat batch_id, 200 + Z.of_nat batch_id);
     train_loader := None;
     config_batch_size := 1 |}.

(** The same surroundings with [Config().trainer.batch_size] set to 2. *)
Definition env2 : Env Z Z Z Z (list (Z * Z)) :=
  {| layerdict := {["cut" := tt]};
     forward_to := λ inputs _, inputs;
     autograd := λ batch_id _ _, (100 + Z.of_nat batch_id, 200 + Z.of_nat batch_id);
     train_loader := None;
     config_batch_size := 2 |}.

Definition config : gmap string Z := {["batch_size" := 1]}.

Definition trainset : list (Z * Z) := [(10, 0); (11, 1); (12, 0)].

Definition fresh_algorithm (gradients : list Z) : Algorithm Z Z Z (list (Z * Z)) :=
  mkAlgorithm gradients None [].

End Demo.

(** * Properties *)

Section TraceFacts.

Context {Tensor X Y D : Type}.

Lemma applied_app (tr1 tr2 : list (event Tensor X Y D)) :
  applied (tr1 ++ tr2) = applied tr1 ++ applied tr2.
Proof. unfold applied. apply omap_app. Qed.

Lemma batch_events_app (tr1 tr2 : list (event Tensor X Y D)) :
  batch_events (tr1 ++ tr2) = batch_events tr1 ++ batch_events tr2.
Proof. unfold batch_events. apply filter_app. Qed.

End TraceFacts.

(** ** Facts about indexing *)

Lemma getitem_nonneg {A : Type} (l : list A) (i : Z) :
  0 ≤ i →
  getitem l i = match l !! Z.to_nat i with
                | Some x => Ok x
                | None => Raise IndexError
                end.
Proof.
  intros Hi. unfold getitem.
  destruct (Z.ltb_spec i 0) as [?|_]; [lia|].
  destruct (Z.ltb_spec i 0) as [?|_]; [lia|]. cbn [orb].
  destruct (Z.leb_spec (Z.of_nat (length l)) i) as [Hge|Hlt]; [|done].
  rewrite (lookup_ge_None_2 l (Z.to_nat i)); [done|lia].
Qed.

Lemma getitem_in_range {A : Type} (l : list A) (i : Z) :
  0 ≤ i < len l → ∃ x, l !! Z.to_nat i = Some x ∧ getitem l i = Ok x.
Proof.
  intros [Hi Hlt]. unfold len in Hlt.
  destruct (lookup_lt_is_Some_2 l (Z.to_nat i)) as [x Hx]; [lia|].
  exists x. split; [done|]. by rewrite getitem_nonneg, Hx.
Qed.

Lemma getitem_past_end {A : Type} (l : list A) (i : Z) :
  len l ≤ i → getitem l i = Raise IndexError.
Proof.
  intros Hge. unfold len in Hge. rewrite getitem_nonneg by lia.
  rewrite (lookup_ge_None_2 l (Z.to_nat i)); [done|lia].
Qed.

(** ** The training loop *)

Section TrainingLoop.

Context {Tensor X Y Feature D : Type} `{!Dataset (X * Y) D}.
Variable env : Env Tensor X Y Feature D.

Implicit Types (self : Algorithm Tensor X Y D) (batches : list (list X * list Y)).

(** After [load_gradients] the gradient list is the sequence given, and
    nothing else has changed. *)
Lemma load_gradients_eq (gradients : list Tensor) self :
  load_gradients gradients self
  = (Ok tt, mkAlgorithm gradients (cut_layer_gradients self) (trace self)).
Proof. reflexivity. Qed.

(** One iteration, computed: five framework calls are appended to the trace,
    then the index is updated and the gradient at the new index is read. *)
Lemma train_batch_eq cut_layer b examples labels idx self :
  train_batch env cut_layer b examples labels idx self =
  let tr := trace self ++
            [ZeroGrad b; Forward b examples; LossCriterion b labels;
             Backward b (cut_layer_gradients self)
               (autograd env b examples labels).1;
             OptimizerStep b] in
  match getitem (gradients_list self) (next_index self idx) with
  | Ok g => (Ok (next_index self idx),
             mkAlgorithm (gradients_list self) (Some g) tr)
  | Raise e => (Raise e,
                mkAlgorithm (gradients_list self) (cut_layer_gradients self) tr)
  end.
Proof.
  unfold train_batch, backward, bind, emit, modify, get, lift, ret, log.
  destruct (autograd env b examples labels) as [grad_input grad_output].
  cbn. rewrite <- !app_assoc. cbn.
  unfold next_index. cbn.
  by destruct (getitem (gradients_list self) _).
Qed.

(** The part of [complete_train] before the loop, computed. *)
Lemma complete_train_eq config dataset sampler cut_layer self batch_size loader :
  layerdict env !! cut_layer = Some tt →
  config !! "batch_size" = Some batch_size →
  train_data_loader env batch_size dataset sampler = Ok loader →
  complete_train env config dataset sampler cut_layer self =
  let tr := trace self ++ [RegisterBackwardHook cut_layer; ModelTrain] in
  match getitem (gradients_list self) 0 with
  | Ok g => batch_loop env cut_layer loader 0 1
              (mkAlgorithm (gradients_list self) (Some g) tr)
  | Raise e => (Raise e,
                mkAlgorithm (gradients_list self) (cut_layer_gradients self) tr)
  end.
Proof.
  intros Hl Hc Hd.
  unfold complete_train, bind, emit, modify, get, lift, ret, log, dict_getitem.
  rewrite Hl, Hc, Hd. cbn. rewrite <- !app_assoc. cbn.
  by destruct (getitem (gradients_list self) 0).
Qed.

(** With at least two gradients loaded and the index on the list, the loop
    runs through all its batches: batch [b + k] finds the gradient that was
    loaded when the loop was entered ([k = 0]) or the one at the clamped
    index [idx + k]. *)
Lemma batch_loop_schedule cut_layer batches : ∀ b idx self,
  1 ≤ idx ≤ len (gradients_list self) - 1 →
  ∃ self' T,
    batch_loop env cut_layer (Ok <$> batches) b idx self
      = (Ok (Z.min (idx + Z.of_nat (length batches))
                   (len (gradients_list self) - 1)), self') ∧
    gradients_list self' = gradients_list self ∧
    trace self' = trace self ++ T ∧
    applied T =
      (λ k : nat,
         ((b + k)%nat,
          match k with
          | O => cut_layer_gradients self
          | S _ => gradients_list self
                     !! Z.to_nat (Z.min (idx + Z.of_nat k)
                                        (len (gradients_list self) - 1))
          end)) <$> seq 0 (length batches).
Proof.
  induction batches as [|[examples labels] batches IH]; intros b idx self Hidx.
  - exists self, []. cbn. rewrite app_nil_r. unfold ret.
    replace (Z.min _ _) with idx by lia. done.
  - cbn [fmap list_fmap batch_loop]. unfold bind at 1, lift at 1.
    unfold bind at 1. rewrite train_batch_eq. cbn zeta.
    assert (Hn : 0 ≤ next_index self idx < len (gradients_list self)
                 ∧ next_index self idx
                   = Z.min (idx + 1) (len (gradients_list self) - 1)).
    { unfold next_index. destruct (Z.ltb_spec idx (len (gradients_list self) - 1)); lia. }
    destruct Hn as [Hrange Hnext].
    destruct (getitem_in_range _ _ Hrange) as (g & Hg & ->).
    set (self1 := mkAlgorithm _ _ _).
    destruct (IH (S b) (next_index self idx) self1) as (self' & T & Hrun & Hgl & Htr & Happ).
    { cbn. rewrite Hnext. lia. }
    exists self'.
    eexists. rewrite Hrun. cbn in Hgl, Htr, Happ |- *. split; [|split; [|split]].
    + f_equal. f_equal. lia.
    + done.
    + rewrite Htr. rewrite <- app_assoc. reflexivity.
    + rewrite applied_app, Happ. cbn. f_equal; [f_equal; lia|].
      rewrite <- fmap_S_seq, <- list_fmap_compose.
      apply list_fmap_ext. intros i k _. cbn. f_equal; [lia|].
      destruct k as [|k].
      * rewrite <- Hg. f_equal. f_equal. lia.
      * f_equal. f_equal. lia.
Qed.

(** With at least two gradients loaded, [complete_train] runs through all
    its batches, and batch [b] is trained with the gradient at
    [loaded_index n b] loaded. *)
Lemma complete_train_schedule config dataset sampler cut_layer self batch_size batches :
  layerdict env !! cut_layer = Some tt →
  config !! "batch_size" = Some batch_size →
  train_data_loader env batch_size dataset sampler = Ok (Ok <$> batches) →
  2 ≤ len (gradients_list self) →
  ∃ self' T,
    complete_train env config dataset sampler cut_layer self
      = (Ok (Z.min (1 + Z.of_nat (length batches))
                   (len (gradients_list self) - 1)), self') ∧
    gradients_list self' = gradients_list self ∧
    trace self' = trace self ++ T ∧
    applied T =
      (λ b : nat,
         (b, gradients_list self
               !! Z.to_nat (loaded_index (len (gradients_list self)) b)))
      <$> seq 0 (length batches).
Proof.
  intros Hl Hc Hd Hn.
  rewrite (complete_train_eq _ _ _ _ _ _ _ Hl Hc Hd). cbn zeta.
  destruct (getitem_in_range (gradients_list self) 0) as (g0 & Hg0 & ->); [lia|].
  set (self0 := mkAlgorithm _ _ _).
  destruct (batch_loop_schedule cut_layer batches 0%nat 1 self0)
    as (self' & T & Hrun & Hgl & Htr & Happ); [cbn; lia|].
  cbn in Hrun, Hgl, Htr, Happ.
  exists self', ([RegisterBackwardHook cut_layer; ModelTrain] ++ T).
  rewrite Hrun. split; [done|]. split; [done|]. split.
  - by rewrite Htr, <- app_assoc.
  - rewrite applied_app, Happ. cbn [applied omap app].
    apply list_fmap_ext. intros i b _. f_equal.
    destruct b as [|b]; [by rewrite <- Hg0|].
    unfold loaded_index. f_equal. f_equal. lia.
Qed.

(** C1: what the code does with three or more gradients loaded.  The first
    batch is trained with the gradient at index 0 loaded and the second
    batch with the gradient at index 2: the gradient at index 1 is passed
    over, where the claim has batch 1 use index 1. *)
Theorem second_gradient_is_skipped config dataset sampler cut_layer self
    batch_size g0 g1 g2 gs b0 b1 batches :
  layerdict env !! cut_layer = Some tt →
  config !! "batch_size" = Some batch_size →
  train_data_loader env batch_size dataset sampler
    = Ok (Ok <$> b0 :: b1 :: batches) →
  gradients_list self = g0 :: g1 :: g2 :: gs →
  ∃ idx self' T,
    complete_train env config dataset sampler cut_layer self = (Ok idx, self') ∧
    trace self' = trace self ++ T ∧
    applied T !! 0%nat = Some (0%nat, Some g0) ∧
    applied T !! 1%nat = Some (1%nat, Some g2).
Proof.
  intros Hl Hc Hd Hgl.
  destruct (complete_train_schedule config dataset sampler cut_layer self
              batch_size (b0 :: b1 :: batches) Hl Hc Hd)
    as (self' & T & Hrun & _ & Htr & Happ).
  { rewrite Hgl. unfold len. cbn [length]. lia. }
  eexists _, self', T. split; [exact Hrun|]. split; [exact Htr|].
  rewrite Happ, Hgl. cbn [length seq fmap list_fmap lookup list_lookup].
  split; [done|]. unfold len, loaded_index. cbn [length].
  replace (Z.to_nat _) with 2%nat by lia. done.
Qed.

(** C3: what the code does with exactly one gradient loaded.  The first batch
    is trained, the index stays at 1, and reading [gradients_list[1]] raises
    IndexError: the run ends there, whatever batches were left. *)
Theorem single_gradient_overruns config dataset sampler cut_layer self
    batch_size g examples labels rest :
  layerdict env !! cut_layer = Some tt →
  config !! "batch_size" = Some batch_size →
  train_data_loader env batch_size dataset sampler
    = Ok (Ok (examples, labels) :: rest) →
  gradients_list self = [g] →
  complete_train env config dataset sampler cut_layer self =
  (Raise IndexError,
   mkAlgorithm [g] (Some g)
     (trace self ++
      [RegisterBackwardHook cut_layer; ModelTrain;
       ZeroGrad 0; Forward 0 examples; LossCriterion 0 labels;
       Backward 0 (Some g) (autograd env 0 examples labels).1;
       OptimizerStep 0])).
Proof.
  intros Hl Hc Hd Hgl.
  rewrite (complete_train_eq _ _ _ _ _ _ _ Hl Hc Hd). cbn zeta.
  rewrite Hgl. change (getitem [g] 0) with (Ok g). cbn [batch_loop].
  unfold bind at 1, lift at 1. unfold bind at 1.
  rewrite train_batch_eq. cbn. by rewrite <- app_assoc.
Qed.

(** C4: with an empty gradient list, [complete_train] raises IndexError at
    [self.gradients_list[0]], before the batch loop: the hook registration
    and the switch to training mode are the only calls made, no batch is
    trained, and [cut_layer_gradients] is left as it was. *)
Theorem empty_gradient_list_raises config dataset sampler cut_layer self
    batch_size loader :
  layerdict env !! cut_layer = Some tt →
  config !! "batch_size" = Some batch_size →
  train_data_loader env batch_size dataset sampler = Ok loader →
  gradients_list self = [] →
  ∃ self',
    complete_train env config dataset sampler cut_layer self
      = (Raise IndexError, self') ∧
    trace self' = trace self ++ [RegisterBackwardHook cut_layer; ModelTrain] ∧
    batch_events (trace self') = batch_events (trace self) ∧
    cut_layer_gradients self' = cut_layer_gradients self ∧
    gradients_list self' = [].
Proof.
  intros Hl Hc Hd Hgl.
  rewrite (complete_train_eq _ _ _ _ _ _ _ Hl Hc Hd). cbn zeta.
  rewrite Hgl. change (getitem [] 0) with (@Raise Tensor IndexError).
  eexists. split; [reflexivity|]. cbn [trace cut_layer_gradients gradients_list].
  split; [done|]. split; [|done].
  rewrite batch_events_app. apply app_nil_r.
Qed.

(** C5: what the code does with [g0, g1] loaded and exactly three batches.
    The run completes, and the hook finds [g0] loaded in batch 0, [g1] in
    batch 1 and [g1] again in batch 2; but in each of the three batches the
    backward pass goes on with the gradient autograd computed for that
    batch: neither [g0] nor [g1] is applied at the cut layer, where the
    claim has each batch trained with the loaded gradient applied. *)
Theorem two_gradients_loaded_not_applied config dataset sampler cut_layer self
    batch_size g0 g1 x0 y0 x1 y1 x2 y2 :
  layerdict env !! cut_layer = Some tt →
  config !! "batch_size" = Some batch_size →
  train_data_loader env batch_size dataset sampler
    = Ok [Ok (x0, y0); Ok (x1, y1); Ok (x2, y2)] →
  gradients_list self = [g0; g1] →
  complete_train env config dataset sampler cut_layer self =
  (Ok 1,
   mkAlgorithm [g0; g1] (Some g1)
     (trace self ++
      [RegisterBackwardHook cut_layer; ModelTrain;
       ZeroGrad 0; Forward 0 x0; LossCriterion 0 y0;
       Backward 0 (Some g0) (autograd env 0 x0 y0).1; OptimizerStep 0;
       ZeroGrad 1; Forward 1 x1; LossCriterion 1 y1;
       Backward 1 (Some g1) (autograd env 1 x1 y1).1; OptimizerStep 1;
       ZeroGrad 2; Forward 2 x2; LossCriterion 2 y2;
       Backward 2 (Some g1) (autograd env 2 x2 y2).1; OptimizerStep 2])).
Proof.
  intros Hl Hc Hd Hgl.
  rewrite (complete_train_eq _ _ _ _ _ _ _ Hl Hc Hd). cbn zeta.
  rewrite Hgl. change (getitem [g0; g1] 0) with (Ok g0). cbn [batch_loop].
  assert (Hg1 : getitem [g0; g1] 1 = Ok g1) by reflexivity.
  assert (Hnext : ∀ c tr, next_index (mkAlgorithm (X:=X) (Y:=Y) (D:=D)
                                        [g0; g1] c tr) 1 = 1) by reflexivity.
  unfold bind, lift, ret.
  do 3 (rewrite train_batch_eq;
        cbn [gradients_list cut_layer_gradients trace]; cbn zeta;
        rewrite !Hnext, Hg1; cbn -[train_batch]).
  by rewrite <- !app_assoc.
Qed.

(** Every iteration of the batch loop, in every state: the five calls are
    made in the order zero gradients, forward pass, loss, backward pass (in
    which the hook is called with the gradient then loaded), optimizer step;
    then the index is updated by the guard of the code and the gradient at
    the resulting index is read. *)
Lemma train_batch_order cut_layer b examples labels idx self :
  ∃ propagated idx' r self',
    train_batch env cut_layer b examples labels idx self = (r, self') ∧
    trace self' = trace self ++
      [ZeroGrad b; Forward b examples; LossCriterion b labels;
       Backward b (cut_layer_gradients self) propagated;
       OptimizerStep b] ∧
    (idx < len (gradients_list self) - 1 → idx' = idx + 1) ∧
    (len (gradients_list self) - 1 ≤ idx → idx' = idx) ∧
    match getitem (gradients_list self) idx' with
    | Ok g => r = Ok idx' ∧ cut_layer_gradients self' = Some g
    | Raise e => r = Raise e ∧ cut_layer_gradients self' = cut_layer_gradients self
    end.
Proof.
  exists (autograd env b examples labels).1, (next_index self idx).
  rewrite train_batch_eq. cbn zeta.
  assert (Hnext : (idx < len (gradients_list self) - 1 → next_index self idx = idx + 1)
                ∧ (len (gradients_list self) - 1 ≤ idx → next_index self idx = idx)).
  { unfold next_index.
    destruct (Z.ltb_spec idx (len (gradients_list self) - 1)); lia. }
  destruct (getitem (gradients_list self) (next_index self idx)) as [g|e];
    eexists _, _; (split; [reflexivity|]); cbn; intuition.
Qed.

End TrainingLoop.

(** Witness of [second_gradient_is_skipped]: the gradients [7, 8, 9] and
    three batches of one sample each. *)
Lemma second_gradient_is_skipped_witness :
  (layerdict Demo.env !! "cut" = Some tt ∧
   Demo.config !! "batch_size" = Some 1 ∧
   train_data_loader Demo.env 1 Demo.trainset [0; 1; 2]
     = Ok (Ok <$> [([10], [0]); ([11], [1]); ([12], [0])]) ∧
   gradients_list (Demo.fresh_algorithm [7; 8; 9]) = [7; 8; 9]) ∧
  ∃ idx self' T,
    complete_train Demo.env Demo.config Demo.trainset [0; 1; 2] "cut"
      (Demo.fresh_algorithm [7; 8; 9]) = (Ok idx, self') ∧
    trace self' = trace (Demo.fresh_algorithm [7; 8; 9]) ++ T ∧
    applied T !! 0%nat = Some (0%nat, Some 7) ∧
    applied T !! 1%nat = Some (1%nat, Some 9).
Proof.
  split; [repeat split; vm_compute; reflexivity|].
  apply (second_gradient_is_skipped Demo.env Demo.config Demo.trainset
           [0; 1; 2] "cut" (Demo.fresh_algorithm [7; 8; 9]) 1 7 8 9 []
           ([10], [0]) ([11], [1]) [([12], [0])]);
    vm_compute; reflexivity.
Defined.

(** Witness of [single_gradient_overruns]: one gradient, three batches. *)
Lemma single_gradient_overruns_witness :
  (layerdict Demo.env !! "cut" = Some tt ∧
   Demo.config !! "batch_size" = Some 1 ∧
   train_data_loader Demo.env 1 Demo.trainset [0; 1; 2]
     = Ok [Ok ([10], [0]); Ok ([11], [1]); Ok ([12], [0])] ∧
   gradients_list (Demo.fresh_algorithm [7]) = [7]) ∧
  complete_train Demo.env Demo.config Demo.trainset [0; 1; 2] "cut"
    (Demo.fresh_algorithm [7]) =
  (Raise IndexError,
   mkAlgorithm [7] (Some 7)
     [RegisterBackwardHook "cut"; ModelTrain;
      ZeroGrad 0; Forward 0 [10]; LossCriterion 0 [0];
      Backward 0 (Some 7) 100; OptimizerStep 0]).
Proof.
  split; [repeat split; vm_compute; reflexivity|].
  apply (single_gradient_overruns Demo.env Demo.config Demo.trainset
           [0; 1; 2] "cut" (Demo.fresh_algorithm [7]) 1 7 [10] [0]
           [Ok ([11], [1]); Ok ([12], [0])]);
    vm_compute; reflexivity.
Defined.

(** Witness of [empty_gradient_list_raises]: no gradient loaded. *)
Lemma empty_gradient_list_raises_witness :
  (layerdict Demo.env !! "cut" = Some tt ∧
   Demo.config !! "batch_size" = Some 1 ∧
   train_data_loader Demo.env 1 Demo.trainset [0; 1; 2]
     = Ok [Ok ([10], [0]); Ok ([11], [1]); Ok ([12], [0])] ∧
   gradients_list (Demo.fresh_algorithm []) = []) ∧
  ∃ self',
    complete_train Demo.env Demo.config Demo.trainset [0; 1; 2] "cut"
      (Demo.fresh_algorithm []) = (Raise IndexError, self') ∧
    trace self' = trace (Demo.fresh_algorithm [])
                    ++ [RegisterBackwardHook "cut"; ModelTrain] ∧
    batch_events (trace self') = batch_events (trace (Demo.fresh_algorithm [])) ∧
    cut_layer_gradients self' = cut_layer_gradients (Demo.fresh_algorithm []) ∧
    gradients_list self' = [].
Proof.
  split; [repeat split; vm_compute; reflexivity|].
  apply (empty_gradient_list_raises Demo.env Demo.config Demo.trainset
           [0; 1; 2] "cut" (Demo.fresh_algorithm []) 1
           [Ok ([10], [0]); Ok ([11], [1]); Ok ([12], [0])]);
    vm_compute; reflexivity.
Defined.

(** Witness of [two_gradients_loaded_not_applied]: the gradients [7, 8] are
    loaded in turn, the gradients propagated are autograd's 100, 101, 102. *)
Lemma two_gradients_loaded_not_applied_witness :
  (layerdict Demo.env !! "cut" = Some tt ∧
   Demo.config !! "batch_size" = Some 1 ∧
   train_data_loader Demo.env 1 Demo.trainset [0; 1; 2]
     = Ok [Ok ([10], [0]); Ok ([11], [1]); Ok ([12], [0])] ∧
   gradients_list (Demo.fresh_algorithm [7; 8]) = [7; 8]) ∧
  complete_train Demo.env Demo.config Demo.trainset [0; 1; 2] "cut"
    (Demo.fresh_algorithm [7; 8]) =
  (Ok 1,
   mkAlgorithm [7; 8] (Some 8)
     [RegisterBackwardHook "cut"; ModelTrain;
      ZeroGrad 0; Forward 0 [10]; LossCriterion 0 [0];
      Backward 0 (Some 7) 100; OptimizerStep 0;
      ZeroGrad 1; Forward 1 [11]; LossCriterion 1 [1];
      Backward 1 (Some 8) 101; OptimizerStep 1;
      ZeroGrad 2; Forward 2 [12]; LossCriterion 2 [0];
      Backward 2 (Some 8) 102; OptimizerStep 2]).
Proof.
  split; [repeat split; vm_compute; reflexivity|].
  apply (two_gradients_loaded_not_applied Demo.env Demo.config Demo.trainset
           [0; 1; 2] "cut" (Demo.fresh_algorithm [7; 8]) 1 7 8
           [10] [0] [11] [1] [12] [0]);
    vm_compute; reflexivity.
Defined.

(** While the index is on the list, the update does what the claim says:
    it advances the index by one unless it is at the last index. *)
Lemma next_index_on_the_list {Tensor X Y D : Type}
    (self : Algorithm Tensor X Y D) (idx : Z) :
  idx ≤ len (gradients_list self) - 1 →
  (idx ≠ len (gradients_list self) - 1 → next_index self idx = idx + 1) ∧
  (idx = len (gradients_list self) - 1 → next_index self idx = idx).
Proof.
  intros Hidx. unfold next_index.
  destruct (Z.ltb_spec idx (len (gradients_list self) - 1)); lia.
Qed.

(** C8: what the code does in the first iteration with one gradient loaded.
    [complete_train] enters the loop with the index at 1.  The five calls
    are made in the order of the claim, but the backward pass goes on with
    the gradient autograd computed (100) although 7 is loaded, so the hook
    substitutes nothing; and the index, which is not the last index 0 of the
    list, is not advanced: it stays at 1, and reading [gradients_list[1]]
    ends the iteration in IndexError. *)
Theorem first_iteration_with_one_gradient :
  let self := mkAlgorithm [7] (Some 7) [RegisterBackwardHook "cut"; ModelTrain] in
  complete_train Demo.env Demo.config Demo.trainset [0] "cut"
    (Demo.fresh_algorithm [7])
  = batch_loop Demo.env "cut" [Ok ([10], [0])] 0 1 self ∧
  train_batch Demo.env "cut" 0 [10] [0] 1 self
  = (Raise IndexError,
     mkAlgorithm [7] (Some 7)
       [RegisterBackwardHook "cut"; ModelTrain;
        ZeroGrad 0; Forward 0 [10]; LossCriterion 0 [0];
        Backward 0 (Some 7) 100; OptimizerStep 0]) ∧
  1 ≠ len (gradients_list self) - 1 ∧
  next_index self 1 = 1 ∧
  next_index self 1 ≠ 1 + 1.
Proof.
  cbn zeta. split; [vm_compute; reflexivity|].
  split; [vm_compute; reflexivity|].
  split; [vm_compute; discriminate|].
  split; [vm_compute; reflexivity|vm_compute; discriminate].
Qed.

(** ** The cut-layer hook *)

Section Hook.

Context {Tensor X Y D : Type}.

Implicit Types (self : Algorithm Tensor X Y D) (grad_input grad_output : Tensor).

(** The hook returns [None] whatever is loaded: the value it hands back to
    the framework does not depend on [cut_layer_gradients]. *)
Lemma apply_gradients_returns_None self module grad_input grad_output :
  returned (apply_gradients self module grad_input grad_output) = None.
Proof. reflexivity. Qed.

(** Hence the backward pass goes on with the gradient it computed. *)
Lemma run_backward_hook_apply_gradients self module grad_input grad_output :
  run_backward_hook (apply_gradients self) module grad_input grad_output
  = grad_input.
Proof. reflexivity. Qed.

(** C2: what the code does when a gradient [g] is loaded.  The hook binds its
    own local name [grad_output] to [g] and returns [None]; the backward
    pass goes on with the gradient it computed, not with [g]. *)
Theorem loaded_gradient_is_not_propagated self module grad_input grad_output g :
  cut_layer_gradients self = Some g →
  local_grad_output (apply_gradients self module grad_input grad_output) = g ∧
  returned (apply_gradients self module grad_input grad_output) = None ∧
  run_backward_hook (apply_gradients self) module grad_input grad_output
  = grad_input.
Proof.
  intros Hg. unfold apply_gradients, run_backward_hook. rewrite Hg. cbn. done.
Qed.

(** C9: with no gradient loaded the hook is the identity: its local
    [grad_output] is still the computed one, it returns [None], and the
    backward pass goes on with the gradient it computed. *)
Theorem hook_is_identity_when_nothing_loaded self module grad_input grad_output :
  cut_layer_gradients self = None →
  local_grad_output (apply_gradients self module grad_input grad_output)
  = grad_output ∧
  returned (apply_gradients self module grad_input grad_output) = None ∧
  run_backward_hook (apply_gradients self) module grad_input grad_output
  = grad_input.
Proof.
  intros Hg. unfold apply_gradients, run_backward_hook. rewrite Hg. cbn. done.
Qed.

End Hook.

(** Witness of [loaded_gradient_is_not_propagated]: the gradient 7 is loaded,
    the backward pass computed 100 and 200, and goes on with 100. *)
Lemma loaded_gradient_is_not_propagated_witness :
  let self := mkAlgorithm (X:=Z) (Y:=Z) (D:=list (Z * Z)) [7; 8] (Some 7) [] in
  cut_layer_gradients self = Some 7 ∧
  local_grad_output (apply_gradients self "cut" 100 200) = 7 ∧
  returned (apply_gradients self "cut" 100 200) = None ∧
  run_backward_hook (apply_gradients self) "cut" 100 200 = 100 ∧
  run_backward_hook (apply_gradients self) "cut" 100 200 ≠ 7.
Proof.
  cbn zeta. split; [reflexivity|].
  destruct (loaded_gradient_is_not_propagated
              (mkAlgorithm (X:=Z) (Y:=Z) (D:=list (Z * Z)) [7; 8] (Some 7) [])
              "cut" 100 200 7 eq_refl) as (Hl & Hr & Hp).
  split; [exact Hl|]. split; [exact Hr|]. split; [exact Hp|].
  rewrite Hp. discriminate.
Defined.

(** Witness of [hook_is_identity_when_nothing_loaded]. *)
Lemma hook_is_identity_when_nothing_loaded_witness :
  let self := Demo.fresh_algorithm [7; 8] in
  cut_layer_gradients self = None ∧
  local_grad_output (apply_gradients self "cut" 100 200) = 200 ∧
  returned (apply_gradients self "cut" 100 200) = None ∧
  run_backward_hook (apply_gradients self) "cut" 100 200 = 100.
Proof.
  cbn zeta. split; [reflexivity|].
  apply (hook_is_identity_when_nothing_loaded
           (Demo.fresh_algorithm [7; 8]) "cut" 100 200 eq_refl).
Defined.

(** ** FeatureDataset *)

Section FeatureDatasetFacts.

Context {Image Label D : Type} `{!Dataset (Image * Label) D}.

(** C10: [FeatureDataset] is an identity wrapper.  Its length is the length
    of the dataset it wraps; at every index it returns what the wrapped
    dataset returns there (the same pair, or the same exception); so it
    yields the same samples; and [train] hands the trainer the wrapper of
    the very training set it was given. *)
Theorem FeatureDataset_is_identity_wrapper (d : D) :
  ds_len (mkFeatureDataset d) = ds_len d ∧
  (∀ i : Z, ds_getitem (mkFeatureDataset d) i = ds_getitem d i) ∧
  (∀ (i : Z) (image : Image) (label : Label),
     ds_getitem d i = Ok (image, label) →
     ds_getitem (mkFeatureDataset d) i = Ok (image, label)) ∧
  (∀ n : nat, samples (mkFeatureDataset d) n = samples d n) ∧
  (∀ (Tensor : Type) (sampler : list Z) (cut_layer : option string)
     (self : Algorithm Tensor Image Label D),
     ∃ wrapped,
       train d sampler cut_layer self
         = (Ok tt, log (TrainerTrain wrapped sampler cut_layer) self) ∧
       dataset wrapped = d).
Proof.
  assert (Hget : ∀ i : Z, ds_getitem (mkFeatureDataset d) i = ds_getitem d i).
  { intros i. cbn. unfold FeatureDataset_getitem. cbn.
    by destruct (ds_getitem d i) as [[image label]|e]. }
  split; [reflexivity|]. split; [exact Hget|]. split.
  - intros i image label Hi. by rewrite Hget.
  - split.
    + intros n. unfold samples. apply list_fmap_ext. intros _ i _. apply Hget.
    + intros Tensor sampler cut_layer self. by exists (mkFeatureDataset d).
Qed.

End FeatureDatasetFacts.

(** ** Feature extraction *)

Section FeatureExtraction.

Context {Tensor X Y Feature : Type}.
Variable env : Env Tensor X Y Feature (list (X * Y)).

Implicit Types (trainset : list (X * Y)) (sampler : list Z).

(** With batch size 1 every sampled index is a batch of its own. *)
Lemma batch_sampler_one sampler :
  batch_sampler 1 [] sampler = (λ i, [i]) <$> sampler.
Proof. induction sampler as [|i sampler IH]; [done|]. cbn. by rewrite IH. Qed.

Lemma fetch_one trainset (i : Z) (x : X) (y : Y) :
  0 ≤ i → trainset !! Z.to_nat i = Some (x, y) →
  fetch trainset [i] = Ok ([x], [y]).
Proof. intros Hi Hx. cbn. by rewrite getitem_nonneg, Hx. Qed.

(** The loop over one-sample batches appends one pair per sampled index,
    made of the feature of that sample and of its label. *)
Lemma extract_loop_one_by_one cut_layer trainset sampler :
  (∀ x, length (forward_to env [x] cut_layer) = 1%nat) →
  Forall (λ i, 0 ≤ i < len trainset) sampler →
  ∀ acc, ∃ new,
    extract_loop env cut_layer (fetch trainset <$> ((λ i, [i]) <$> sampler)) acc
      = Ok (acc ++ new) ∧
    Forall2 (λ p i, ∃ x, trainset !! Z.to_nat i = Some (x, p.2)
                         ∧ forward_to env [x] cut_layer = [p.1])
            new sampler.
Proof.
  intros Hrow Hvalid. induction Hvalid as [|i sampler Hi _ IH]; intros acc.
  - exists []. cbn. by rewrite app_nil_r.
  - destruct (getitem_in_range trainset i Hi) as ([x y] & Hx & _).
    cbn [fmap list_fmap]. rewrite (fetch_one _ _ _ _ (proj1 Hi) Hx).
    cbn [extract_loop].
    specialize (Hrow x).
    destruct (forward_to env [x] cut_layer) as [|f [|??]] eqn:Hf; try done.
    cbn [length seq append_rows]. change (getitem [f] (Z.of_nat 0)) with (Ok f).
    change (getitem [y] (Z.of_nat 0)) with (Ok y). cbn [append_rows].
    destruct (IH (acc ++ [(f, y)])) as (new & -> & Hnew).
    exists ((f, y) :: new). split; [by rewrite <- app_assoc|].
    constructor; [|done]. exists x. by rewrite Hx, Hf.
Qed.

(** C7: over a training set of [K] samples, with a loader of batch size 1
    and a sampler that yields every index exactly once, [extract_features]
    returns exactly [K] pairs; the pair returned for a sampled index carries
    the feature and the label of the sample at that index, so the labels
    returned are the labels of the training set, each once.  (The model is
    taken to map a batch of one example to one row of features.) *)
Theorem extract_features_one_pair_per_sample trainset sampler cut_layer
    (self : Algorithm Tensor X Y (list (X * Y))) :
  extract_data_loader env trainset sampler = DataLoader trainset 1 sampler →
  sampler ≡ₚ Z.of_nat <$> seq 0 (length trainset) →
  (∀ x, length (forward_to env [x] cut_layer) = 1%nat) →
  ∃ feature_dataset,
    extract_features env trainset sampler cut_layer self
      = (Ok feature_dataset, log ModelEval self) ∧
    length feature_dataset = length trainset ∧
    Forall2 (λ p i, ∃ x, trainset !! Z.to_nat i = Some (x, p.2)
                         ∧ forward_to env [x] cut_layer = [p.1])
            feature_dataset sampler ∧
    feature_dataset.*2 ≡ₚ trainset.*2.
Proof.
  intros Hloader Hperm Hrow.
  assert (Hvalid : Forall (λ i, 0 ≤ i < len trainset) sampler).
  { rewrite Hperm. apply Forall_fmap, Forall_seq. intros j Hj. cbn. unfold len. lia. }
  destruct (extract_loop_one_by_one cut_layer trainset sampler Hrow Hvalid [])
    as (fd & Hrun & Hfd).
  exists fd. cbn [app] in Hrun.
  assert (Hlen : length fd = length trainset).
  { rewrite (Forall2_length _ _ _ Hfd), Hperm. by rewrite length_fmap, length_seq. }
  split; [|split; [exact Hlen|split; [exact Hfd|]]].
  - unfold extract_features, bind, emit, modify, lift. rewrite Hloader.
    unfold DataLoader. cbn. rewrite batch_sampler_one. by rewrite Hrun.
  - assert (Hlab : Some <$> fd.*2
                   = (λ i, snd <$> trainset !! Z.to_nat i) <$> sampler).
    { clear -Hfd. induction Hfd as [|p i fd sampler (x & Hx & _) _ IH]; [done|].
      cbn. rewrite Hx. cbn. by rewrite IH. }
    assert (Hall : Some <$> trainset.*2
                   = (λ i, snd <$> trainset !! Z.to_nat i)
                       <$> (Z.of_nat <$> seq 0 (length trainset))).
    { apply list_eq. intros j. rewrite <- list_fmap_compose, !list_lookup_fmap.
      destruct (decide (j < length trainset)%nat) as [Hj|Hj].
      - rewrite (lookup_seq_lt 0 _ j Hj). cbn. rewrite Nat2Z.id.
        by destruct (lookup_lt_is_Some_2 trainset j Hj) as [[x y] ->].
      - rewrite (lookup_ge_None_2 trainset j) by lia.
        by rewrite (lookup_seq_ge 0 _ j) by lia. }
    assert (Hp : Some <$> fd.*2 ≡ₚ Some <$> trainset.*2).
    { rewrite Hlab, Hall. by rewrite Hperm. }
    apply Permutation_map_inv in Hp as (l & Heq & Hp).
    apply (inj (fmap Some)) in Heq. subst l. by symmetry.
Qed.

End FeatureExtraction.

(** Witness of [extract_features_one_pair_per_sample]: three samples, drawn
    in the order 2, 0, 1. *)
Lemma extract_features_one_pair_per_sample_witness :
  (extract_data_loader Demo.env Demo.trainset [2; 0; 1]
     = DataLoader Demo.trainset 1 [2; 0; 1] ∧
   [2; 0; 1] ≡ₚ Z.of_nat <$> seq 0 (length Demo.trainset) ∧
   (∀ x, length (forward_to Demo.env [x] "cut") = 1%nat)) ∧
  ∃ feature_dataset,
    extract_features Demo.env Demo.trainset [2; 0; 1] "cut"
      (Demo.fresh_algorithm []) = (Ok feature_dataset, log ModelEval (Demo.fresh_algorithm [])) ∧
    length feature_dataset = length Demo.trainset ∧
    Forall2 (λ p i, ∃ x, Demo.trainset !! Z.to_nat i = Some (x, p.2)
                         ∧ forward_to Demo.env [x] "cut" = [p.1])
            feature_dataset [2; 0; 1] ∧
    feature_dataset.*2 ≡ₚ (Demo.trainset).*2.
Proof.
  assert (Hperm : [2; 0; 1] ≡ₚ Z.of_nat <$> seq 0 (length Demo.trainset)).
  { apply (Permutation_cons_append [0; 1] 2). }
  split; [split; [reflexivity|split; [exact Hperm|intros x; reflexivity]]|].
  apply (extract_features_one_pair_per_sample Demo.env Demo.trainset
           [2; 0; 1] "cut" (Demo.fresh_algorithm []) eq_refl Hperm).
  intros x. reflexivity.
Defined.

(** ** Loading gradients: the stored list is a copy of its own *)

Module StoreFacts.

Import Store.

Section StoreFacts.

Context {Tensor : Type}.

Implicit Types (h : gmap loc (obj Tensor)) (memo : gmap loc loc)
  (G : list Tensor) (items : list loc).

Lemma list_at_Some h x G :
  list_at h x = Some G ↔
  ∃ items, h !! x = Some (OList items)
           ∧ Forall2 (λ a d, h !! a = Some (OTensor d)) items G.
Proof.
  unfold list_at. split.
  - destruct (h !! x) as [[d|items]|] eqn:Hx; try done.
    intros HG. exists items. split; [done|].
    apply mapM_Some in HG. eapply Forall2_impl; [exact HG|].
    intros a d. unfold tensor_at. destruct (h !! a) as [[?|?]|]; naive_solver.
  - intros (items & -> & HG). apply mapM_Some.
    eapply Forall2_impl; [exact HG|]. intros a d Ha. unfold tensor_at. by rewrite Ha.
Qed.

(** Copying the items of a list of tensors of [h0], from a store [h] that
    extends [h0] and a memo whose copies of tensors lie outside [h0]. *)
Lemma deepcopy_items_spec (h0 : gmap loc (obj Tensor)) items G :
  Forall2 (λ a d, h0 !! a = Some (OTensor d)) items G →
  ∀ h memo,
  (∀ l o, h0 !! l = Some o → h !! l = Some o) →
  (∀ l l' d, memo !! l = Some l' → h0 !! l = Some (OTensor d) →
             (l' ∉ dom h0) ∧ h !! l' = Some (OTensor d)) →
  ∃ h2 memo2 items',
    deepcopy_items h memo items = Some (h2, memo2, items') ∧
    (∀ l o, h !! l = Some o → h2 !! l = Some o) ∧
    Forall2 (λ a' d, (a' ∉ dom h0) ∧ h2 !! a' = Some (OTensor d)) items' G.
Proof.
  induction 1 as [|a d items G Ha _ IH]; intros h memo Hext Hmemo.
  - exists h, memo, []. cbn. split; [done|]. split; [done|]. constructor.
  - cbn [deepcopy_items]. unfold deepcopy_item.
    destruct (memo !! a) as [l'|] eqn:Hm.
    + destruct (Hmemo _ _ _ Hm Ha) as [Hfresh Hl'].
      destruct (IH h memo Hext Hmemo) as (h2 & memo2 & rest' & Hrun & Hmono & Hrest).
      cbn. rewrite Hrun. cbn.
      exists h2, memo2, (l' :: rest'). split; [done|]. split; [done|].
      constructor; [|done]. split; [done|]. by apply Hmono.
    + rewrite (Hext _ _ Ha). unfold alloc.
      set (l' := fresh (dom h)).
      assert (Hl' : h !! l' = None) by (apply not_elem_of_dom, is_fresh).
      assert (Hne : ∀ l o, h !! l = Some o → l ≠ l') by (intros l o ? ->; congruence).
      destruct (IH (<[l' := OTensor d]> h) (<[a := l']> memo))
        as (h2 & memo2 & rest' & Hrun & Hmono & Hrest).
      * intros l o Hl. rewrite lookup_insert_ne; [by apply Hext|].
        intros <-. apply Hext in Hl. congruence.
      * intros l l'' d' Hl Hd'.
        destruct (decide (a = l)) as [<-|Hal].
        -- rewrite lookup_insert_eq in Hl. injection Hl as <-.
           rewrite Ha in Hd'. injection Hd' as <-.
           split; [|by rewrite lookup_insert_eq].
           apply not_elem_of_dom. destruct (h0 !! l') as [o|] eqn:Ho; [|done].
           apply Hext in Ho. congruence.
        -- rewrite lookup_insert_ne in Hl by done.
           destruct (Hmemo _ _ _ Hl Hd') as [? Hl''].
           split; [done|]. rewrite lookup_insert_ne; [done|].
           intros <-. congruence.
      * cbn. rewrite Hrun. cbn.
        exists h2, memo2, (l' :: rest'). split; [done|]. split.
        -- intros l o Hl. apply Hmono. rewrite lookup_insert_ne; [done|].
           intros <-. congruence.
        -- constructor; [|done]. split.
           ++ apply not_elem_of_dom. destruct (h0 !! l') as [o|] eqn:Ho; [|done].
              apply Hext in Ho. congruence.
           ++ apply Hmono. by rewrite lookup_insert_eq.
Qed.

(** [deepcopy] of a list of tensors succeeds; the copy and its items are
    objects that did not exist before, every object that existed is left as
    it was, and the copy has the value of the original. *)
Lemma deepcopy_spec h x G :
  list_at h x = Some G →
  ∃ h' y items',
    deepcopy h x = Some (h', y) ∧
    (∀ l o, h !! l = Some o → h' !! l = Some o) ∧
    (y ∉ dom h) ∧
    h' !! y = Some (OList items') ∧
    Forall2 (λ a' d, (a' ∉ dom h) ∧ h' !! a' = Some (OTensor d)) items' G.
Proof.
  intros (items & Hx & HG)%list_at_Some. unfold deepcopy. rewrite Hx. unfold alloc.
  set (y := fresh (dom h)).
  assert (Hy : h !! y = None) by (apply not_elem_of_dom, is_fresh).
  destruct (deepcopy_items_spec h items G HG (<[y := OList []]> h) {[x := y]})
    as (h2 & memo2 & items' & Hrun & Hmono & Hitems).
  - intros l o Hl. rewrite lookup_insert_ne; [done|]. intros <-. congruence.
  - intros l l' d Hl Hd. apply lookup_singleton_Some in Hl as [<- <-]. congruence.
  - rewrite Hrun. cbn. exists (<[y := OList items']> h2), y, items'.
    split; [done|]. split; [|split; [apply is_fresh|split]].
    + intros l o Hl. rewrite lookup_insert_ne by (intros <-; congruence).
      apply Hmono. rewrite lookup_insert_ne; [done|]. intros <-. congruence.
    + by rewrite lookup_insert_eq.
    + eapply Forall2_impl; [exact Hitems|]. intros a' d [Hfresh Ha'].
      split; [done|]. rewrite lookup_insert_ne; [done|].
      intros <-. rewrite (Hmono y (OList [])) in Ha'; [done|].
      by rewrite lookup_insert_eq.
Qed.

(** Objects that exist keep their value when the store only grows. *)
Lemma list_at_mono h h' x G :
  (∀ l o, h !! l = Some o → h' !! l = Some o) →
  list_at h x = Some G → list_at h' x = Some G.
Proof.
  intros Hmono (items & Hx & HG)%list_at_Some. apply list_at_Some.
  exists items. split; [by apply Hmono|].
  eapply Forall2_impl; [exact HG|]. intros a d. apply Hmono.
Qed.

(** One call of [load_gradients] on a list of tensors. *)
Lemma load_gradients_spec h self gradients G :
  list_at h gradients = Some G →
  ∃ h' self' items',
    load_gradients gradients (h, self) = Some (h', self') ∧
    (∀ l o, h !! l = Some o → h' !! l = Some o) ∧
    (gradients_list self' ∉ dom h) ∧
    h' !! gradients_list self' = Some (OList items') ∧
    Forall2 (λ a' d, (a' ∉ dom h) ∧ h' !! a' = Some (OTensor d)) items' G.
Proof.
  intros HG.
  destruct (deepcopy_spec h gradients G HG)
    as (h' & y & items' & Hrun & Hmono & Hy & Hlist & Hitems).
  exists h', (mkAlgorithm y (cut_layer_gradients self)), items'.
  cbn. rewrite Hrun. cbn. done.
Qed.

(** C6: two calls of [load_gradients] in succession, on the caller's
    sequences [gradients1] and [gradients2] of values [G1] and [G2].  Both
    calls succeed; after the second the stored list has exactly the value
    [G2]; and the stored list is an object of its own, made of objects of its
    own: whatever is done afterwards to objects that existed before the
    second call (the caller's sequence and its tensors among them), and
    whatever objects are created, the stored list still has the value [G2]. *)
Theorem load_gradients_twice h self gradients1 gradients2 G1 G2 :
  list_at h gradients1 = Some G1 →
  list_at h gradients2 = Some G2 →
  ∃ h1 self1 h2 self2,
    load_gradients gradients1 (h, self) = Some (h1, self1) ∧
    list_at h1 (gradients_list self1) = Some G1 ∧
    load_gradients gradients2 (h1, self1) = Some (h2, self2) ∧
    list_at h2 (gradients_list self2) = Some G2 ∧
    list_at h2 gradients2 = Some G2 ∧
    gradients_list self2 ≠ gradients2 ∧
    gradients_list self2 ≠ gradients_list self1 ∧
    ∀ h'' : gmap loc (obj Tensor),
      (∀ l, l ∉ dom h1 → l ∈ dom h2 → h'' !! l = h2 !! l) →
      list_at h'' (gradients_list self2) = Some G2.
Proof.
  intros HG1 HG2.
  destruct (load_gradients_spec h self gradients1 G1 HG1)
    as (h1 & self1 & items1 & Hrun1 & Hmono1 & Hy1 & Hlist1 & Hitems1).
  assert (HG2' : list_at h1 gradients2 = Some G2) by (by eapply list_at_mono).
  destruct (load_gradients_spec h1 self1 gradients2 G2 HG2')
    as (h2 & self2 & items2 & Hrun2 & Hmono2 & Hy2 & Hlist2 & Hitems2).
  exists h1, self1, h2, self2.
  split; [done|]. split.
  { apply list_at_Some. exists items1. split; [done|].
    eapply Forall2_impl; [exact Hitems1|]. by intros a d [_ ?]. }
  split; [done|]. split.
  { apply list_at_Some. exists items2. split; [done|].
    eapply Forall2_impl; [exact Hitems2|]. by intros a d [_ ?]. }
  split; [by eapply list_at_mono|]. split.
  { intros Heq. apply Hy2. rewrite Heq.
    apply list_at_Some in HG2' as (items & Hx & _). by apply elem_of_dom. }
  split.
  { intros Heq. apply Hy2. rewrite Heq. by apply elem_of_dom. }
  intros h'' Hsame. apply list_at_Some. exists items2. split.
  - rewrite Hsame; [done|done|by apply elem_of_dom].
  - eapply Forall2_impl; [exact Hitems2|]. intros a d [Hfresh Ha].
    rewrite Hsame; [done|done|by apply elem_of_dom].
Qed.

End StoreFacts.

(** After [load_gradients] of the caller's list [[7, 8]], the caller
    overwrites its first tensor in place and drops an item from its list:
    the stored list still reads [[7, 8]], the caller's list reads [[8]]. *)
Lemma caller_mutation_example :
  ∃ h1 self1,
    load_gradients 2%nat (demo_heap, demo_algorithm) = Some (h1, self1) ∧
    let h2 := <[2%nat := OList [1%nat]]> (<[0%nat := OTensor 70]> h1) in
    list_at h2 (gradients_list self1) = Some [7; 8] ∧
    list_at h2 2%nat = Some [8].
Proof. eexists _, _. split; [vm_compute; reflexivity|]. vm_compute. done. Qed.

(** Witness of [load_gradients_twice]: the caller's lists [[7, 8]] and [[9]]
    of [demo_heap]. *)
Lemma load_gradients_twice_witness :
  (list_at demo_heap 2%nat = Some [7; 8] ∧ list_at demo_heap 4%nat = Some [9]) ∧
  ∃ h1 self1 h2 self2,
    load_gradients 2%nat (demo_heap, demo_algorithm) = Some (h1, self1) ∧
    list_at h1 (gradients_list self1) = Some [7; 8] ∧
    load_gradients 4%nat (h1, self1) = Some (h2, self2) ∧
    list_at h2 (gradients_list self2) = Some [9] ∧
    list_at h2 4%nat = Some [9] ∧
    gradients_list self2 ≠ 4%nat ∧
    gradients_list self2 ≠ gradients_list self1 ∧
    ∀ h'' : gmap loc (obj Z),
      (∀ l, l ∉ dom h1 → l ∈ dom h2 → h'' !! l = h2 !! l) →
      list_at h'' (gradients_list self2) = Some [9].
Proof.
  split; [split; vm_compute; reflexivity|].
  apply (load_gradients_twice demo_heap (demo_algorithm)
           2%nat 4%nat [7; 8] [9]); vm_compute; reflexivity.
Defined.

End StoreFacts.

(** * Further properties of the code *)

(** ** The training loop, on every input *)

Lemma getitem_elem_of {A : Type} (l : list A) (i : Z) (x : A) :
  getitem l i = Ok x → x ∈ l.
Proof.
  unfold getitem. destruct (_ || _); [done|].
  destruct (l !! _) as [y|] eqn:Hy; [|done].
  intros [= <-]. by eapply list_elem_of_lookup_2.
Qed.

Section TrainingLoopRuns.

Context {Tensor X Y Feature D : Type} `{!Dataset (X * Y) D}.
Variable env : Env Tensor X Y Feature D.

Implicit Types (self : Algorithm Tensor X Y D) (batches : list (list X * list Y))
  (loader : data_loader X Y).

(** [complete_train], computed, with every way it can end before the loop. *)
Lemma complete_train_cases config dataset sampler cut_layer self :
  complete_train env config dataset sampler cut_layer self =
  match layerdict env !! cut_layer with
  | None => (Raise KeyError, self)
  | Some _ =>
      let self1 := mkAlgorithm (gradients_list self) (cut_layer_gradients self)
                     (trace self ++ [RegisterBackwardHook cut_layer; ModelTrain]) in
      match config !! "batch_size" with
      | None => (Raise KeyError, self1)
      | Some batch_size =>
          match train_data_loader env batch_size dataset sampler with
          | Raise e => (Raise e, self1)
          | Ok loader =>
              match getitem (gradients_list self) 0 with
              | Raise e => (Raise e, self1)
              | Ok g => batch_loop env cut_layer loader 0 1
                          (mkAlgorithm (gradients_list self) (Some g) (trace self1))
              end
          end
      end
  end.
Proof.
  unfold complete_train, bind, emit, modify, get, lift, ret, log, dict_getitem.
  destruct (layerdict env !! cut_layer) as [[]|]; [|done]. cbn.
  rewrite <- !app_assoc. cbn.
  destruct (config !! "batch_size") as [batch_size|]; [|done]. cbn.
  destruct (train_data_loader env batch_size dataset sampler) as [loader|e]; [|done].
  cbn. by destruct (getitem (gradients_list self) 0).
Qed.


(** What every run of the loop keeps, however it ends: the gradient list is
    not touched, the trace only grows, every backward pass recorded went on
    with the gradient autograd computed for that batch and found loaded what
    the hook's attribute held, and [cut_layer_gradients] is either what it
    was or a gradient of the list. *)
Lemma batch_loop_invariant cut_layer loader : ∀ b0 idx self r self',
  batch_loop env cut_layer loader b0 idx self = (r, self') →
  gradients_list self' = gradients_list self ∧
  (cut_layer_gradients self' = cut_layer_gradients self
   ∨ ∃ g, cut_layer_gradients self' = Some g ∧ g ∈ gradients_list self) ∧
  ∃ T, trace self' = trace self ++ T ∧
    Forall (λ e, match e with
                 | Backward b loaded p =>
                     (loaded = cut_layer_gradients self
                      ∨ ∃ g, loaded = Some g ∧ g ∈ gradients_list self) ∧
                     ∃ examples labels,
                       loader !! (b - b0)%nat = Some (Ok (examples, labels)) ∧
                       (b0 ≤ b)%nat ∧
                       p = (autograd env b examples labels).1
                 | _ => True
                 end) T.
Proof.
  induction loader as [|item loader IH]; intros b0 idx self r self' Hrun.
  - cbn in Hrun. injection Hrun as <- <-. split; [done|]. split; [by left|].
    exists []. by rewrite app_nil_r.
  - cbn [batch_loop] in Hrun. unfold bind at 1, lift in Hrun.
    destruct item as [[examples labels]|e].
    2:{ injection Hrun as <- <-. split; [done|]. split; [by left|].
        exists []. by rewrite app_nil_r. }
    unfold bind at 1 in Hrun. rewrite train_batch_eq in Hrun. cbn zeta in Hrun.
    set (steps := [ZeroGrad b0; Forward b0 examples; LossCriterion b0 labels;
                   Backward b0 (cut_layer_gradients self)
                     (autograd env b0 examples labels).1;
                   OptimizerStep b0]) in *.
    assert (Hsteps : Forall (λ e, match e with
                 | Backward b loaded p =>
                     (loaded = cut_layer_gradients self
                      ∨ ∃ g, loaded = Some g ∧ g ∈ gradients_list self) ∧
                     ∃ examples' labels',
                       (Ok (examples, labels) :: loader) !! (b - b0)%nat
                         = Some (Ok (examples', labels')) ∧
                       (b0 ≤ b)%nat ∧
                       p = (autograd env b examples' labels').1
                 | _ => True
                 end) steps).
    { repeat constructor. exists examples, labels. by rewrite Nat.sub_diag. }
    destruct (getitem (gradients_list self) (next_index self idx)) as [g|e] eqn:Hg.
    2:{ injection Hrun as <- <-. cbn. split; [done|]. split; [by left|].
        by exists steps. }
    apply getitem_elem_of in Hg.
    apply IH in Hrun as (Hgl & Hcut & T & Htr & HT). cbn in Hgl, Hcut, Htr, HT.
    split; [done|]. split.
    { right. destruct Hcut as [->|Hcut]; [by exists g|done]. }
    exists (steps ++ T). split; [by rewrite Htr, app_assoc|].
    apply Forall_app. split; [done|].
    eapply Forall_impl; [exact HT|]. intros [] He; try done.
    destruct He as (Hl & examples' & labels' & Hb & Hle & ->). split.
    + right. destruct Hl as [->|Hl]; [by exists g|done].
    + exists examples', labels'.
      replace (batch_id - b0)%nat with (S (batch_id - S b0)) by lia.
      split; [done|]. split; [lia|done].
Qed.

(** On a normal exit after at least one batch, the gradient left loaded is
    the one at the index the loop ended with. *)
Lemma batch_loop_final_gradient cut_layer loader : ∀ b idx self idx' self',
  loader ≠ [] →
  batch_loop env cut_layer loader b idx self = (Ok idx', self') →
  ∃ g, getitem (gradients_list self) idx' = Ok g
       ∧ cut_layer_gradients self' = Some g.
Proof.
  induction loader as [|item loader IH]; intros b idx self idx' self' Hne Hrun; [done|].
  cbn [batch_loop] in Hrun. unfold bind at 1, lift in Hrun.
  destruct item as [[examples labels]|e]; [|done].
  unfold bind at 1 in Hrun. rewrite train_batch_eq in Hrun. cbn zeta in Hrun.
  destruct (getitem (gradients_list self) (next_index self idx)) as [g|e] eqn:Hg; [|done].
  destruct loader as [|item' loader].
  - cbn in Hrun. injection Hrun as <- <-. by exists g.
  - by apply IH in Hrun.
Qed.

(** X1: with two or more gradients loaded and a loader whose batches can all
    be fetched, [complete_train] returns normally; batch [b] is trained with
    the gradient at index [loaded_index n b] loaded ([0], then the clamped
    [b + 1]); the gradient list is unchanged; the index ends at the clamped
    [1 + number of batches], and the gradient at that index is the one left
    in [cut_layer_gradients] (the one at index 0 if there was no batch). *)
Theorem complete_train_full_run config dataset sampler cut_layer self
    batch_size batches :
  layerdict env !! cut_layer = Some tt →
  config !! "batch_size" = Some batch_size →
  train_data_loader env batch_size dataset sampler = Ok (Ok <$> batches) →
  2 ≤ len (gradients_list self) →
  ∃ self' T,
    complete_train env config dataset sampler cut_layer self
      = (Ok (Z.min (1 + Z.of_nat (length batches))
                   (len (gradients_list self) - 1)), self') ∧
    gradients_list self' = gradients_list self ∧
    trace self' = trace self ++ T ∧
    applied T =
      (λ b : nat,
         (b, gradients_list self
               !! Z.to_nat (loaded_index (len (gradients_list self)) b)))
      <$> seq 0 (length batches) ∧
    cut_layer_gradients self' =
      gradients_list self
        !! Z.to_nat (match batches with
                     | [] => 0
                     | _ => Z.min (1 + Z.of_nat (length batches))
                                  (len (gradients_list self) - 1)
                     end).
Proof.
  intros Hl Hc Hd Hn.
  destruct (complete_train_schedule env config dataset sampler cut_layer self
              batch_size batches Hl Hc Hd Hn)
    as (self' & T & Hrun & Hgl & Htr & Happ).
  exists self', T. split; [done|]. split; [done|]. split; [done|]. split; [done|].
  rewrite complete_train_cases, Hl, Hc, Hd in Hrun. cbn zeta in Hrun.
  destruct (getitem_in_range (gradients_list self) 0) as (g0 & Hg0 & Hget0); [lia|].
  rewrite Hget0 in Hrun.
  destruct batches as [|batch batches].
  - cbn in Hrun. injection Hrun as _ <-. cbn. by rewrite <- Hg0.
  - apply batch_loop_final_gradient in Hrun as (g & Hg & ->); [|done].
    cbn [gradients_list] in Hg. rewrite getitem_nonneg in Hg by lia.
    by destruct (gradients_list self !! _) as [g'|]; [injection Hg as ->|].
Qed.

(** X2: whatever its arguments and however it ends, [complete_train] leaves
    the gradient list as it was and only adds to the trace;
    [cut_layer_gradients] is afterwards what it was before or a gradient of
    the list. *)
Theorem complete_train_keeps_gradients_list config dataset sampler cut_layer self :
  ∃ r self',
    complete_train env config dataset sampler cut_layer self = (r, self') ∧
    gradients_list self' = gradients_list self ∧
    (∃ T, trace self' = trace self ++ T) ∧
    (cut_layer_gradients self' = cut_layer_gradients self
     ∨ ∃ g, cut_layer_gradients self' = Some g ∧ g ∈ gradients_list self).
Proof.
  rewrite complete_train_cases.
  destruct (layerdict env !! cut_layer) as [[]|].
  2:{ eexists _, _. split; [done|]. split; [done|]. split; [|by left].
      exists []. by rewrite app_nil_r. }
  cbn zeta.
  destruct (config !! "batch_size") as [batch_size|].
  2:{ eexists _, _. split; [done|]. cbn. split; [done|]. split; [by eexists|by left]. }
  destruct (train_data_loader env batch_size dataset sampler) as [loader|e].
  2:{ eexists _, _. split; [done|]. cbn. split; [done|]. split; [by eexists|by left]. }
  destruct (getitem (gradients_list self) 0) as [g0|e] eqn:Hg0.
  2:{ eexists _, _. split; [done|]. cbn. split; [done|]. split; [by eexists|by left]. }
  apply getitem_elem_of in Hg0.
  destruct (batch_loop env cut_layer loader 0 1 _) as [r self'] eqn:Hrun.
  exists r, self'. split; [done|].
  apply batch_loop_invariant in Hrun as (Hgl & Hcut & T & Htr & _).
  cbn in Hgl, Hcut, Htr. split; [done|]. split.
  - eexists. by rewrite Htr, <- app_assoc.
  - right. destruct Hcut as [->|Hcut]; [by exists g0|done].
Qed.

(** X3: a cut layer that the model does not have makes [complete_train]
    raise KeyError at once: no hook is registered, the model is not switched
    to training mode and the object is left exactly as it was. *)
Theorem complete_train_unknown_cut_layer config dataset sampler cut_layer self :
  layerdict env !! cut_layer = None →
  complete_train env config dataset sampler cut_layer self = (Raise KeyError, self).
Proof. intros Hl. by rewrite complete_train_cases, Hl. Qed.

(** X4: a configuration without ["batch_size"] makes [complete_train] raise
    KeyError after the hook has been registered and the model switched to
    training mode: these two calls have been made, no batch is trained and
    the gradients are untouched. *)
Theorem complete_train_missing_batch_size config dataset sampler cut_layer self :
  layerdict env !! cut_layer = Some tt →
  config !! "batch_size" = None →
  complete_train env config dataset sampler cut_layer self =
  (Raise KeyError,
   mkAlgorithm (gradients_list self) (cut_layer_gradients self)
     (trace self ++ [RegisterBackwardHook cut_layer; ModelTrain])).
Proof. intros Hl Hc. by rewrite complete_train_cases, Hl, Hc. Qed.

(** X5: with a loader that yields no batch and a gradient list that is not
    empty, [complete_train] returns normally with the index at 1 and the
    first gradient loaded, also when the list has a single gradient. *)
Theorem complete_train_no_batches config dataset sampler cut_layer self
    batch_size g gs :
  layerdict env !! cut_layer = Some tt →
  config !! "batch_size" = Some batch_size →
  train_data_loader env batch_size dataset sampler = Ok [] →
  gradients_list self = g :: gs →
  complete_train env config dataset sampler cut_layer self =
  (Ok 1,
   mkAlgorithm (g :: gs) (Some g)
     (trace self ++ [RegisterBackwardHook cut_layer; ModelTrain])).
Proof.
  intros Hl Hc Hd Hgl. rewrite complete_train_cases, Hl, Hc, Hd, Hgl. done.
Qed.


(** X7: in every run of [complete_train] that gets to its loop, each
    backward pass finds a gradient of the list loaded (never [None]) and
    goes on with the gradient autograd computed for that batch: the loaded
    gradient never reaches what is propagated. *)
Theorem complete_train_backward_passes config dataset sampler cut_layer self
    batch_size loader r self' :
  layerdict env !! cut_layer = Some tt →
  config !! "batch_size" = Some batch_size →
  train_data_loader env batch_size dataset sampler = Ok loader →
  complete_train env config dataset sampler cut_layer self = (r, self') →
  ∃ T, trace self' = trace self ++ T ∧
    Forall (λ e, match e with
                 | Backward b loaded p =>
                     (∃ g, loaded = Some g ∧ g ∈ gradients_list self) ∧
                     ∃ examples labels,
                       loader !! b = Some (Ok (examples, labels)) ∧
                       p = (autograd env b examples labels).1
                 | _ => True
                 end) T.
Proof.
  intros Hl Hc Hd. rewrite complete_train_cases, Hl, Hc, Hd. cbn zeta.
  destruct (getitem (gradients_list self) 0) as [g0|e] eqn:Hg0.
  2:{ intros [= <- <-]. eexists. split; [done|]. repeat constructor. }
  apply getitem_elem_of in Hg0. intros Hrun.
  apply batch_loop_invariant in Hrun as (_ & _ & T & Htr & HT). cbn in Htr, HT.
  exists ([RegisterBackwardHook cut_layer; ModelTrain] ++ T).
  split; [by rewrite Htr, <- app_assoc|].
  apply Forall_app. split; [repeat constructor|].
  eapply Forall_impl; [exact HT|]. intros [] He; try done.
  destruct He as (Hloaded & examples & labels & Hb & _ & ->).
  rewrite Nat.sub_0_r in Hb. split; [|by exists examples, labels].
  destruct Hloaded as [->|Hloaded]; [by exists g0|done].
Qed.

(** X8: once [complete_train] has read the first gradient, it never returns
    with [cut_layer_gradients] empty: however the run ends, a gradient of the
    list is left loaded for later calls of the hook. *)
Theorem complete_train_leaves_a_gradient_loaded config dataset sampler cut_layer
    self batch_size loader r self' :
  layerdict env !! cut_layer = Some tt →
  config !! "batch_size" = Some batch_size →
  train_data_loader env batch_size dataset sampler = Ok loader →
  gradients_list self ≠ [] →
  complete_train env config dataset sampler cut_layer self = (r, self') →
  ∃ g, cut_layer_gradients self' = Some g ∧ g ∈ gradients_list self.
Proof.
  intros Hl Hc Hd Hne. rewrite complete_train_cases, Hl, Hc, Hd. cbn zeta.
  destruct (getitem_in_range (gradients_list self) 0) as (g0 & Hg0 & ->).
  { unfold len. destruct (gradients_list self); [done|]. cbn [length]. lia. }
  intros Hrun. apply batch_loop_invariant in Hrun as (_ & Hcut & _).
  cbn in Hcut. destruct Hcut as [->|Hcut]; [|done].
  exists g0. split; [done|]. by eapply list_elem_of_lookup_2.
Qed.

End TrainingLoopRuns.

(** Witness of [complete_train_full_run]: the gradients [7, 8, 9], three
    batches of one sample each. *)
Lemma complete_train_full_run_witness :
  (layerdict Demo.env !! "cut" = Some tt ∧
   Demo.config !! "batch_size" = Some 1 ∧
   train_data_loader Demo.env 1 Demo.trainset [0; 1; 2]
     = Ok (Ok <$> [([10], [0]); ([11], [1]); ([12], [0])]) ∧
   2 ≤ len (gradients_list (Demo.fresh_algorithm [7; 8; 9]))) ∧
  ∃ self' T,
    complete_train Demo.env Demo.config Demo.trainset [0; 1; 2] "cut"
      (Demo.fresh_algorithm [7; 8; 9]) = (Ok 2, self') ∧
    gradients_list self' = [7; 8; 9] ∧
    trace self' = T ∧
    applied T = [(0%nat, Some 7); (1%nat, Some 9); (2%nat, Some 9)] ∧
    cut_layer_gradients self' = Some 9.
Proof.
  split; [repeat split; vm_compute; (reflexivity || discriminate)|].
  apply (complete_train_full_run Demo.env Demo.config Demo.trainset
           [0; 1; 2] "cut" (Demo.fresh_algorithm [7; 8; 9]) 1
           [([10], [0]); ([11], [1]); ([12], [0])]);
    vm_compute; (reflexivity || discriminate).
Defined.

(** Witness of [complete_train_unknown_cut_layer]: the layer ["fc9"]. *)
Lemma complete_train_unknown_cut_layer_witness :
  layerdict Demo.env !! "fc9" = None ∧
  complete_train Demo.env Demo.config Demo.trainset [0; 1; 2] "fc9"
    (Demo.fresh_algorithm [7; 8])
  = (Raise KeyError, Demo.fresh_algorithm [7; 8]).
Proof.
  split; [vm_compute; reflexivity|].
  apply (complete_train_unknown_cut_layer Demo.env Demo.config Demo.trainset
           [0; 1; 2] "fc9" (Demo.fresh_algorithm [7; 8])).
  vm_compute; reflexivity.
Defined.

(** Witness of [complete_train_missing_batch_size]: an empty configuration. *)
Lemma complete_train_missing_batch_size_witness :
  (layerdict Demo.env !! "cut" = Some tt ∧
   (∅ : gmap string Z) !! "batch_size" = None) ∧
  complete_train Demo.env ∅ Demo.trainset [0; 1; 2] "cut"
    (Demo.fresh_algorithm [7; 8])
  = (Raise KeyError,
     mkAlgorithm [7; 8] None [RegisterBackwardHook "cut"; ModelTrain]).
Proof.
  split; [split; vm_compute; reflexivity|].
  apply (complete_train_missing_batch_size Demo.env ∅ Demo.trainset
           [0; 1; 2] "cut" (Demo.fresh_algorithm [7; 8]));
    vm_compute; reflexivity.
Defined.

(** Witness of [complete_train_no_batches]: one gradient, an empty sampler. *)
Lemma complete_train_no_batches_witness :
  (layerdict Demo.env !! "cut" = Some tt ∧
   Demo.config !! "batch_size" = Some 1 ∧
   train_data_loader Demo.env 1 Demo.trainset [] = Ok [] ∧
   gradients_list (Demo.fresh_algorithm [7]) = [7]) ∧
  complete_train Demo.env Demo.config Demo.trainset [] "cut"
    (Demo.fresh_algorithm [7])
  = (Ok 1, mkAlgorithm [7] (Some 7) [RegisterBackwardHook "cut"; ModelTrain]).
Proof.
  split; [repeat split; vm_compute; reflexivity|].
  apply (complete_train_no_batches Demo.env Demo.config Demo.trainset
           [] "cut" (Demo.fresh_algorithm [7]) 1 7 []);
    vm_compute; reflexivity.
Defined.


(** Witness of [complete_train_backward_passes]: the run of the gradients
    [7, 8] over three batches. *)
Lemma complete_train_backward_passes_witness :
  let loader := [Ok ([10], [0]); Ok ([11], [1]); Ok ([12], [0])] in
  let run := complete_train Demo.env Demo.config Demo.trainset [0; 1; 2] "cut"
               (Demo.fresh_algorithm [7; 8]) in
  (layerdict Demo.env !! "cut" = Some tt ∧
   Demo.config !! "batch_size" = Some 1 ∧
   train_data_loader Demo.env 1 Demo.trainset [0; 1; 2] = Ok loader) ∧
  ∃ T, trace run.2 = trace (Demo.fresh_algorithm [7; 8]) ++ T ∧
    Forall (λ e, match e with
                 | Backward b loaded p =>
                     (∃ g, loaded = Some g ∧ g ∈ [7; 8]) ∧
                     ∃ examples labels,
                       loader !! b = Some (Ok (examples, labels)) ∧
                       p = (autograd Demo.env b examples labels).1
                 | _ => True
                 end) T.
Proof.
  cbn zeta. split; [repeat split; vm_compute; reflexivity|].
  apply (complete_train_backward_passes Demo.env Demo.config Demo.trainset
           [0; 1; 2] "cut" (Demo.fresh_algorithm [7; 8]) 1
           [Ok ([10], [0]); Ok ([11], [1]); Ok ([12], [0])]
           (complete_train Demo.env Demo.config Demo.trainset [0; 1; 2] "cut"
              (Demo.fresh_algorithm [7; 8])).1);
    vm_compute; reflexivity.
Defined.

(** Witness of [complete_train_leaves_a_gradient_loaded]: the run of a
    single gradient, which ends in IndexError after the first batch. *)
Lemma complete_train_leaves_a_gradient_loaded_witness :
  let run := complete_train Demo.env Demo.config Demo.trainset [0; 1; 2] "cut"
               (Demo.fresh_algorithm [7]) in
  (layerdict Demo.env !! "cut" = Some tt ∧
   Demo.config !! "batch_size" = Some 1 ∧
   train_data_loader Demo.env 1 Demo.trainset [0; 1; 2]
     = Ok [Ok ([10], [0]); Ok ([11], [1]); Ok ([12], [0])] ∧
   gradients_list (Demo.fresh_algorithm [7]) ≠ [] ∧
   run.1 = Raise IndexError) ∧
  ∃ g, cut_layer_gradients run.2 = Some g ∧ g ∈ [7].
Proof.
  cbn zeta. split; [repeat split; vm_compute; (reflexivity || discriminate)|].
  apply (complete_train_leaves_a_gradient_loaded Demo.env Demo.config
           Demo.trainset [0; 1; 2] "cut" (Demo.fresh_algorithm [7]) 1
           [Ok ([10], [0]); Ok ([11], [1]); Ok ([12], [0])]
           (complete_train Demo.env Demo.config Demo.trainset [0; 1; 2] "cut"
              (Demo.fresh_algorithm [7])).1);
    vm_compute; (reflexivity || discriminate).
Defined.

(** ** Feature extraction, on every batch size *)

Lemma getitem_of_nat {A : Type} (l : list A) (j : nat) (x : A) :
  l !! j = Some x → getitem l (Z.of_nat j) = Ok x.
Proof. intros Hx. rewrite getitem_nonneg by lia. by rewrite Nat2Z.id, Hx. Qed.

Lemma getitem_out_of_range {A : Type} (l : list A) (i : Z) :
  i < - len l ∨ len l ≤ i → getitem l i = Raise IndexError.
Proof.
  intros Hi. unfold getitem, len in *.
  destruct (Z.ltb_spec i 0).
  - destruct (Z.ltb_spec (i + Z.of_nat (length l)) 0); [done|lia].
  - destruct (Z.ltb_spec i 0); [lia|].
    destruct (Z.leb_spec (Z.of_nat (length l)) i); [done|lia].
Qed.

Lemma getitem_raises_IndexError {A : Type} (l : list A) (i : Z) (e : exn) :
  getitem l i = Raise e → e = IndexError.
Proof.
  unfold getitem. destruct (_ || _); [congruence|].
  destruct (l !! _); congruence.
Qed.

Section FeatureExtractionRuns.

Context {Tensor X Y Feature : Type}.
Variable env : Env Tensor X Y Feature (list (X * Y)).

Implicit Types (trainset : list (X * Y)) (sampler : list Z)
  (logits : list Feature) (targets : list Y).

(** Every index that goes into the batch sampler comes out, in order. *)
Lemma batch_sampler_join batch_size sampler : ∀ batch,
  mjoin (batch_sampler batch_size batch sampler) = batch ++ sampler.
Proof.
  induction sampler as [|idx sampler IH]; intros batch.
  - destruct batch; cbn; by rewrite ?app_nil_r.
  - cbn [batch_sampler]. destruct (_ =? _)%nat.
    + cbn [mjoin list_join]. rewrite IH. cbn. by rewrite <- app_assoc.
    + rewrite IH. by rewrite <- app_assoc.
Qed.

Lemma batch_sampler_Forall (P : Z → Prop) batch_size sampler : ∀ batch,
  Forall P batch → Forall P sampler →
  Forall (Forall P) (batch_sampler batch_size batch sampler).
Proof.
  induction sampler as [|idx sampler IH]; intros batch Hb Hs.
  - destruct batch as [|z batch]; cbn.
    + apply Forall_nil_2.
    + apply Forall_cons_2; [done|apply Forall_nil_2].
  - apply Forall_cons in Hs as [Hidx Hs]. cbn [batch_sampler].
    assert (Forall P (batch ++ [idx])) by (apply Forall_app; by repeat constructor).
    destruct (_ =? _)%nat; [constructor; [done|by apply IH]|by apply IH].
Qed.

(** Rows [j .. j+n-1], when both the features and the labels have them. *)
Lemma append_rows_ok logits targets : ∀ n j acc,
  (j + n ≤ length logits)%nat → (j + n ≤ length targets)%nat →
  append_rows logits targets (seq j n) acc
  = Ok (acc ++ zip (take n (drop j logits)) (take n (drop j targets))).
Proof.
  induction n as [|n IH]; intros j acc Hl Ht.
  - cbn. by rewrite app_nil_r.
  - destruct (lookup_lt_is_Some_2 logits j) as [f Hf]; [lia|].
    destruct (lookup_lt_is_Some_2 targets j) as [t Hy]; [lia|].
    cbn [seq append_rows].
    rewrite (getitem_of_nat _ _ _ Hf), (getitem_of_nat _ _ _ Hy).
    rewrite IH by lia. rewrite (drop_S _ _ _ Hf), (drop_S _ _ _ Hy). cbn.
    by rewrite <- app_assoc.
Qed.

Lemma append_rows_app logits targets rows1 rows2 : ∀ acc,
  append_rows logits targets (rows1 ++ rows2) acc =
  match append_rows logits targets rows1 acc with
  | Ok acc' => append_rows logits targets rows2 acc'
  | Raise e => Raise e
  end.
Proof.
  induction rows1 as [|i rows1 IH]; intros acc; [done|].
  cbn [app append_rows].
  destruct (getitem logits (Z.of_nat i)), (getitem targets (Z.of_nat i)); auto.
Qed.

(** The inner loop of [extract_features] on one batch: one pair per row of
    the features if there are at least as many labels, IndexError if there
    are fewer. *)
Lemma append_rows_all logits targets acc :
  append_rows logits targets (seq 0 (length logits)) acc =
  if decide (length logits ≤ length targets)%nat
  then Ok (acc ++ zip logits targets)
  else Raise IndexError.
Proof.
  case_decide as Hle.
  - rewrite append_rows_ok by lia. cbn [drop].
    rewrite (take_ge logits) by lia. by rewrite zip_with_take_r.
  - replace (length logits) with (length targets + S (length logits - S (length targets)))%nat
      at 1 by lia.
    rewrite seq_app, append_rows_app, append_rows_ok by lia.
    cbn [seq append_rows Nat.add].
    destruct (lookup_lt_is_Some_2 logits (length targets)) as [f Hf]; [lia|].
    rewrite (getitem_of_nat _ _ _ Hf).
    rewrite (getitem_past_end targets); [done|unfold len; lia].
Qed.

(** Fetching a batch of valid indices yields the samples at those indices. *)
Lemma fetch_valid trainset (idxs : list Z) :
  Forall (λ i, 0 ≤ i < len trainset) idxs →
  ∃ ps, Forall2 (λ i p, trainset !! Z.to_nat i = Some p) idxs ps
        ∧ fetch trainset idxs = Ok (ps.*1, ps.*2).
Proof.
  induction 1 as [|i idxs Hi _ (ps & Hps & IH)].
  - by exists [].
  - destruct (getitem_in_range trainset i Hi) as ([x y] & Hx & Hget).
    exists ((x, y) :: ps). split; [by constructor|].
    cbn [fetch]. cbn in Hget |- *. by rewrite Hget, IH.
Qed.

(** A batch with an index outside the training set cannot be fetched. *)
Lemma fetch_invalid trainset (idxs : list Z) (i : Z) :
  i ∈ idxs → i < - len trainset ∨ len trainset ≤ i →
  fetch trainset idxs = Raise IndexError.
Proof.
  intros Hin Hi. induction idxs as [|j idxs IH]; [by apply elem_of_nil in Hin|].
  cbn [fetch]. cbn.
  destruct (getitem trainset j) as [[x y]|e] eqn:Hj.
  - apply elem_of_cons in Hin as [->|Hin].
    + by rewrite getitem_out_of_range in Hj.
    + by rewrite (IH Hin).
  - by apply getitem_raises_IndexError in Hj as ->.
Qed.

Lemma fetch_raises_IndexError trainset (idxs : list Z) (e : exn) :
  fetch trainset idxs = Raise e → e = IndexError.
Proof.
  induction idxs as [|j idxs IH]; [done|]. cbn [fetch]. cbn.
  destruct (getitem trainset j) as [[x y]|e'] eqn:Hj.
  - destruct (fetch trainset idxs) as [[xs ys]|e'']; [done|].
    intros [= <-]. by apply IH.
  - intros [= <-]. by apply getitem_raises_IndexError in Hj.
Qed.

(** X9: one batch of the extraction loop contributes one pair per row of the
    features the model returns for it: if the model returns no more rows
    than the batch has labels, row [i] is paired with label [i] and any
    further labels are passed over without notice; if it returns more rows,
    the loop ends in IndexError. *)
Theorem extract_loop_pairs_rows_with_labels cut_layer inputs targets
    (rest : data_loader X Y) (acc : list (Feature * Y)) :
  extract_loop env cut_layer (Ok (inputs, targets) :: rest) acc =
  let logits := forward_to env inputs cut_layer in
  if decide (length logits ≤ length targets)%nat
  then extract_loop env cut_layer rest (acc ++ zip logits targets)
  else Raise IndexError.
Proof.
  cbn [extract_loop]. cbn zeta. rewrite append_rows_all. by case_decide.
Qed.

(** The batches of valid indices, with a model that returns one row per
    example: the pairs appended carry the labels of the sampled indices, in
    order, and the features of the batches, batch by batch. *)
Lemma extract_loop_chunks cut_layer trainset (chunks : list (list Z)) :
  (∀ xs, length (forward_to env xs cut_layer) = length xs) →
  Forall (Forall (λ i, 0 ≤ i < len trainset)) chunks →
  ∀ acc, ∃ new,
    extract_loop env cut_layer (fetch trainset <$> chunks) acc = Ok (acc ++ new) ∧
    Some <$> new.*2 = (λ i, snd <$> trainset !! Z.to_nat i) <$> mjoin chunks ∧
    new.*1 = mjoin ((λ idxs, forward_to env
                               (omap (λ i, fst <$> trainset !! Z.to_nat i) idxs)
                               cut_layer) <$> chunks).
Proof.
  intros Hrows Hvalid. induction Hvalid as [|idxs chunks Hidxs _ IH]; intros acc.
  - exists []. cbn. by rewrite app_nil_r.
  - destruct (fetch_valid trainset idxs Hidxs) as (ps & Hps & Hfetch).
    cbn [fmap list_fmap]. rewrite Hfetch, extract_loop_pairs_rows_with_labels.
    cbn zeta. set (logits := forward_to env ps.*1 cut_layer).
    assert (Hlen : length logits = length ps.*2).
    { unfold logits. by rewrite Hrows, !length_fmap. }
    rewrite decide_True by lia.
    destruct (IH (acc ++ zip logits ps.*2)) as (new & -> & Hlab & Hfea).
    exists (zip logits ps.*2 ++ new). split; [by rewrite app_assoc|].
    assert (Hx : omap (λ i, fst <$> trainset !! Z.to_nat i) idxs = ps.*1).
    { clear -Hps. induction Hps as [|i p idxs ps Hi _ IHps]; [done|].
      cbn. rewrite Hi. cbn. by rewrite IHps. }
    assert (Hy : (λ i, snd <$> trainset !! Z.to_nat i) <$> idxs = Some <$> ps.*2).
    { clear -Hps. induction Hps as [|i p idxs ps Hi _ IHps]; [done|].
      cbn. rewrite Hi. cbn. by rewrite IHps. }
    split.
    + cbn [mjoin list_join]. rewrite !fmap_app, snd_zip by lia. by rewrite Hlab, Hy.
    + cbn [fmap list_fmap mjoin list_join]. rewrite fmap_app, fst_zip by lia.
      by rewrite Hfea, Hx.
Qed.

(** A loader with a batch that cannot be fetched never yields a feature
    dataset. *)
Lemma extract_loop_failing_batch cut_layer (loader : data_loader X Y) :
  Forall (λ item, ∀ e, item = Raise e → e = IndexError) loader →
  Exists (λ item, ∃ e, item = Raise e) loader →
  ∀ acc, extract_loop env cut_layer loader acc = Raise IndexError.
Proof.
  intros Hall Hex. induction Hall as [|item loader Hitem _ IH]; intros acc.
  - by apply Exists_nil in Hex.
  - destruct item as [[inputs targets]|e].
    + rewrite extract_loop_pairs_rows_with_labels. cbn zeta.
      case_decide; [|done]. apply IH.
      apply Exists_cons in Hex as [(e & He)|Hex]; [done|done].
    + cbn. by rewrite (Hitem e eq_refl).
Qed.

(** With the standard loader, whatever the batch size, and a model that
    returns one row of features per example, [extract_features] returns one
    pair per index the sampler yields, in the sampler's order: pair [j]
    carries the label of the sample at the [j]-th sampled index, and the
    features are those of the batches the indices were grouped into.  The
    object is changed only by the switch to evaluation mode. *)
Lemma extract_features_standard_loader trainset sampler cut_layer
    (self : Algorithm Tensor X Y (list (X * Y))) :
  train_loader env = None →
  0 < config_batch_size env →
  Forall (λ i, 0 ≤ i < len trainset) sampler →
  (∀ xs, length (forward_to env xs cut_layer) = length xs) →
  ∃ feature_dataset,
    extract_features env trainset sampler cut_layer self
      = (Ok feature_dataset, log ModelEval self) ∧
    length feature_dataset = length sampler ∧
    Some <$> feature_dataset.*2
      = (λ i, snd <$> trainset !! Z.to_nat i) <$> sampler ∧
    feature_dataset.*1
      = mjoin ((λ idxs, forward_to env
                          (omap (λ i, fst <$> trainset !! Z.to_nat i) idxs)
                          cut_layer)
               <$> batch_sampler (Z.to_nat (config_batch_size env)) [] sampler).
Proof.
  intros Hstd Hb Hvalid Hrows.
  set (chunks := batch_sampler (Z.to_nat (config_batch_size env)) [] sampler).
  assert (Hchunks : Forall (Forall (λ i, 0 ≤ i < len trainset)) chunks).
  { apply batch_sampler_Forall; [constructor|done]. }
  destruct (extract_loop_chunks cut_layer trainset chunks Hrows Hchunks [])
    as (fd & Hrun & Hlab & Hfea).
  cbn [app] in Hrun. unfold chunks in Hlab. rewrite batch_sampler_join in Hlab.
  cbn [app] in Hlab.
  exists fd. split; [|split; [|done]].
  - unfold extract_features, bind, emit, modify, lift, extract_data_loader.
    rewrite Hstd. unfold DataLoader.
    destruct (Z.leb_spec (config_batch_size env) 0); [lia|].
    cbn. fold chunks. by rewrite Hrun.
  - apply (f_equal length) in Hlab. by rewrite !length_fmap in Hlab.
Qed.

(** X10: with the standard loader, whatever the batch size, and a model that
    returns one row of features per example, [extract_features] returns one
    pair per index the sampler yields, in the sampler's order: pair [j]
    carries the label of the sample at the [j]-th sampled index, and the
    features are those of the batches the indices were grouped into.  The
    object is changed only by the switch to evaluation mode. *)
Theorem extract_features_any_batch_size trainset sampler cut_layer
    (self : Algorithm Tensor X Y (list (X * Y))) :
  train_loader env = None →
  0 < config_batch_size env →
  Forall (λ i, 0 ≤ i < len trainset) sampler →
  (∀ xs, length (forward_to env xs cut_layer) = length xs) →
  ∃ feature_dataset,
    extract_features env trainset sampler cut_layer self
      = (Ok feature_dataset, log ModelEval self) ∧
    length feature_dataset = length sampler ∧
    Some <$> feature_dataset.*2
      = (λ i, snd <$> trainset !! Z.to_nat i) <$> sampler ∧
    feature_dataset.*1
      = mjoin ((λ idxs, forward_to env
                          (omap (λ i, fst <$> trainset !! Z.to_nat i) idxs)
                          cut_layer)
               <$> batch_sampler (Z.to_nat (config_batch_size env)) [] sampler).
Proof. apply extract_features_standard_loader. Qed.

(** X11: with the standard loader, a sampler that yields an index outside
    the training set makes [extract_features] raise IndexError, wherever the
    index comes in the sampler and whatever the model returns: the pairs
    extracted before it are lost. *)
Theorem extract_features_index_outside trainset sampler cut_layer
    (self : Algorithm Tensor X Y (list (X * Y))) (i : Z) :
  train_loader env = None →
  0 < config_batch_size env →
  i ∈ sampler →
  i < - len trainset ∨ len trainset ≤ i →
  extract_features env trainset sampler cut_layer self
  = (Raise IndexError, log ModelEval self).
Proof.
  intros Hstd Hb Hin Hi.
  unfold extract_features, bind, emit, modify, lift, extract_data_loader.
  rewrite Hstd. unfold DataLoader.
  destruct (Z.leb_spec (config_batch_size env) 0); [lia|]. cbn.
  rewrite extract_loop_failing_batch; [done| |].
  - apply Forall_fmap, Forall_forall. intros idxs _ e. apply fetch_raises_IndexError.
  - assert (Hj : i ∈ mjoin (batch_sampler (Z.to_nat (config_batch_size env)) [] sampler))
      by (by rewrite batch_sampler_join).
    apply list_elem_of_join in Hj as (idxs & Hidxs & Hchunk).
    apply Exists_exists. exists (fetch trainset idxs). split.
    + by apply list_elem_of_fmap_2.
    + exists IndexError. by eapply fetch_invalid.
Qed.

End FeatureExtractionRuns.

(** Witness of [extract_features_any_batch_size]: batches of two, three
    samples drawn in the order 2, 0, 1. *)
Lemma extract_features_any_batch_size_witness :
  (train_loader Demo.env2 = None ∧
   0 < config_batch_size Demo.env2 ∧
   Forall (λ i, 0 ≤ i < len Demo.trainset) [2; 0; 1] ∧
   (∀ xs, length (forward_to Demo.env2 xs "cut") = length xs)) ∧
  ∃ feature_dataset,
    extract_features Demo.env2 Demo.trainset [2; 0; 1] "cut"
      (Demo.fresh_algorithm []) = (Ok feature_dataset, log ModelEval (Demo.fresh_algorithm [])) ∧
    length feature_dataset = 3%nat ∧
    Some <$> feature_dataset.*2 = [Some 0; Some 0; Some 1] ∧
    feature_dataset.*1 = [12; 10; 11].
Proof.
  assert (Hvalid : Forall (λ i, 0 ≤ i < len Demo.trainset) [2; 0; 1]).
  { repeat first [apply Forall_nil_2 | apply Forall_cons_2; [vm_compute; split; [discriminate|reflexivity]|]]. }
  split; [split; [reflexivity|split; [reflexivity|split; [exact Hvalid|intros xs; reflexivity]]]|].
  apply (extract_features_any_batch_size Demo.env2 Demo.trainset [2; 0; 1] "cut"
           (Demo.fresh_algorithm []) eq_refl eq_refl Hvalid).
  intros xs. reflexivity.
Defined.

(** Witness of [extract_features_index_outside]: the index 3 in a training
    set of three samples. *)
Lemma extract_features_index_outside_witness :
  (train_loader Demo.env2 = None ∧
   0 < config_batch_size Demo.env2 ∧
   3 ∈ [0; 1; 3] ∧
   (3 < - len Demo.trainset ∨ len Demo.trainset ≤ 3)) ∧
  extract_features Demo.env2 Demo.trainset [0; 1; 3] "cut" (Demo.fresh_algorithm [])
  = (Raise IndexError, log ModelEval (Demo.fresh_algorithm [])).
Proof.
  assert (Hin : 3 ∈ [0; 1; 3]) by (do 2 apply list_elem_of_further; apply list_elem_of_here).
  assert (Hout : 3 < - len Demo.trainset ∨ len Demo.trainset ≤ 3)
    by (right; vm_compute; discriminate).
  split; [split; [reflexivity|split; [reflexivity|split; [exact Hin|exact Hout]]]|].
  apply (extract_features_index_outside Demo.env2 Demo.trainset [0; 1; 3] "cut"
           (Demo.fresh_algorithm []) 3 eq_refl eq_refl Hin Hout).
Defined.

(** ** The all-inclusive sampler *)

Module AllInclusiveFacts.

Import AllInclusive.

Lemma getitem_range (n i : Z) : 0 ≤ i < n → getitem (range n) i = Ok i.
Proof.
  intros Hi. unfold range. rewrite getitem_nonneg by lia.
  rewrite (lookup_seqZ_lt 0 n (Z.to_nat i)) by lia. f_equal. lia.
Qed.

Lemma getitems_range (n : Z) (positions : list Z) :
  Forall (λ i, 0 ≤ i < n) positions →
  getitems (range n) positions = Ok positions.
Proof.
  induction 1 as [|i positions Hi _ IH]; [done|].
  cbn [getitems]. by rewrite getitem_range, IH.
Qed.

Lemma trainset_size_init (n client : Z) :
  trainset_size (init n client) = Z.max 0 n.
Proof. unfold trainset_size, init, range, len. cbn. rewrite length_seqZ. lia. Qed.

(** What the sampler yields, given the permutation torch draws. *)
Lemma iterate_get (config : TrainerConfig) (n client : Z) (randperm : list Z) :
  randperm ≡ₚ seqZ 0 (trainset_size (init n client)) →
  ∃ idxs,
    iterate randperm (get config (init n client)) = Ok idxs ∧
    idxs ≡ₚ range n ∧
    (use_mindspore config || use_tensorflow config = true → idxs = range n).
Proof.
  intros Hperm. rewrite trainset_size_init in Hperm.
  assert (Hsame : seqZ 0 (Z.max 0 n) = range n).
  { unfold range, seqZ. f_equal. f_equal. lia. }
  rewrite Hsame in Hperm.
  unfold get. destruct (use_mindspore config); [by exists (range n)|].
  destruct (use_tensorflow config); [by exists (range n)|].
  exists randperm. cbn. split; [|split; [done|done]].
  apply getitems_range. rewrite Hperm. unfold range.
  apply Forall_seqZ. intros i ?. lia.
Qed.

(** X12: the all-inclusive sampler of a dataset with [n] training examples
    yields every index [0 .. n-1] exactly once, whichever framework is
    configured and whatever permutation torch draws; with MindSpore or
    TensorFlow configured it yields them in increasing order; and
    [trainset_size] is the number of indices yielded ([0] for [n <= 0]). *)
Theorem all_inclusive_yields_each_index_once (config : TrainerConfig)
    (n client : Z) (randperm : list Z) :
  randperm ≡ₚ seqZ 0 (trainset_size (init n client)) →
  ∃ idxs,
    iterate randperm (get config (init n client)) = Ok idxs ∧
    idxs ≡ₚ range n ∧
    (use_mindspore config || use_tensorflow config = true → idxs = range n) ∧
    len idxs = trainset_size (init n client) ∧
    trainset_size (init n client) = Z.max 0 n.
Proof.
  intros Hperm.
  destruct (iterate_get config n client randperm Hperm) as (idxs & Hrun & Hidxs & Hord).
  exists idxs. split; [done|]. split; [done|]. split; [done|].
  split; [|apply trainset_size_init].
  unfold len. rewrite Hidxs. by unfold trainset_size, init.
Qed.

(** The labels collected along a sampler that is a permutation of the
    indices of the training set are the labels of the training set. *)
Lemma labels_along_permutation {X Y : Type} (trainset : list (X * Y))
    (sampler : list Z) (labels : list Y) :
  sampler ≡ₚ range (len trainset) →
  Some <$> labels = (λ i, snd <$> trainset !! Z.to_nat i) <$> sampler →
  labels ≡ₚ trainset.*2.
Proof.
  intros Hperm Hlab.
  assert (Hall : Some <$> trainset.*2
                 = (λ i, snd <$> trainset !! Z.to_nat i) <$> range (len trainset)).
  { unfold range, seqZ, len. rewrite Nat2Z.id. apply list_eq. intros j.
    rewrite <- list_fmap_compose, !list_lookup_fmap.
    destruct (decide (j < length trainset)%nat) as [Hj|Hj].
    - rewrite (lookup_seq_lt 0 _ j Hj). cbn.
      replace (Z.to_nat (Z.of_nat j + 0)) with j by lia.
      by destruct (lookup_lt_is_Some_2 trainset j Hj) as [[x y] ->].
    - rewrite (lookup_ge_None_2 trainset j) by lia.
      by rewrite (lookup_seq_ge 0 _ j) by lia. }
  assert (Hp : Some <$> labels ≡ₚ Some <$> trainset.*2).
  { rewrite Hlab, Hall. by rewrite Hperm. }
  apply Permutation_map_inv in Hp as (l & Heq & Hp).
  apply (inj (fmap Some)) in Heq. subst l. by symmetry.
Qed.

(** X13: feature extraction driven by the all-inclusive sampler.  For a
    training set of [K] samples whose data source reports [K] training
    examples, with the standard loader, any batch size, and a model that
    returns one row per example, [extract_features] over the indices the
    sampler yields returns exactly [K] pairs whose labels are the labels of
    the training set, each once. *)
Theorem extract_features_with_all_inclusive_sampler
    {Tensor X Y Feature : Type} (env : Env Tensor X Y Feature (list (X * Y)))
    (config : TrainerConfig) (client : Z) (randperm : list Z)
    (trainset : list (X * Y)) (cut_layer : string)
    (self : Algorithm Tensor X Y (list (X * Y))) :
  train_loader env = None →
  0 < config_batch_size env →
  (∀ xs, length (forward_to env xs cut_layer) = length xs) →
  randperm ≡ₚ seqZ 0 (trainset_size (init (len trainset) client)) →
  ∃ idxs feature_dataset,
    iterate randperm (get config (init (len trainset) client)) = Ok idxs ∧
    extract_features env trainset idxs cut_layer self
      = (Ok feature_dataset, log ModelEval self) ∧
    length feature_dataset = length trainset ∧
    feature_dataset.*2 ≡ₚ trainset.*2.
Proof.
  intros Hstd Hb Hrows Hperm.
  destruct (iterate_get config (len trainset) client randperm Hperm)
    as (idxs & Hrun & Hidxs & _).
  assert (Hvalid : Forall (λ i, 0 ≤ i < len trainset) idxs).
  { rewrite Hidxs. unfold range. apply Forall_seqZ. intros i ?. lia. }
  destruct (extract_features_standard_loader env trainset idxs cut_layer self
              Hstd Hb Hvalid Hrows) as (fd & Hfd & Hlen & Hlab & _).
  exists idxs, fd. split; [done|]. split; [done|]. split.
  - rewrite Hlen, Hidxs. unfold range, len. rewrite length_seqZ. lia.
  - by eapply labels_along_permutation.
Qed.

(** Witness of [all_inclusive_yields_each_index_once]: three training
    examples, torch configured, the permutation 2, 0, 1. *)
Lemma all_inclusive_yields_each_index_once_witness :
  [2; 0; 1] ≡ₚ seqZ 0 (trainset_size (init 3 0)) ∧
  ∃ idxs,
    iterate [2; 0; 1] (get (mkTrainerConfig false false) (init 3 0)) = Ok idxs ∧
    idxs ≡ₚ range 3 ∧
    (false || false = true → idxs = range 3) ∧
    len idxs = trainset_size (init 3 0) ∧
    trainset_size (init 3 0) = Z.max 0 3.
Proof.
  assert (Hperm : [2; 0; 1] ≡ₚ seqZ 0 (trainset_size (init 3 0))).
  { apply (Permutation_cons_append [0; 1] 2). }
  split; [exact Hperm|].
  apply (all_inclusive_yields_each_index_once (mkTrainerConfig false false)
           3 0 [2; 0; 1] Hperm).
Defined.

(** Witness of [extract_features_with_all_inclusive_sampler]: the three
    samples of [Demo.trainset], batches of two. *)
Lemma extract_features_with_all_inclusive_sampler_witness :
  (train_loader Demo.env2 = None ∧
   0 < config_batch_size Demo.env2 ∧
   (∀ xs, length (forward_to Demo.env2 xs "cut") = length xs) ∧
   [2; 0; 1] ≡ₚ seqZ 0 (trainset_size (init (len Demo.trainset) 0))) ∧
  ∃ idxs feature_dataset,
    iterate [2; 0; 1]
      (get (mkTrainerConfig false false) (init (len Demo.trainset) 0)) = Ok idxs ∧
    extract_features Demo.env2 Demo.trainset idxs "cut" (Demo.fresh_algorithm [])
      = (Ok feature_dataset, log ModelEval (Demo.fresh_algorithm [])) ∧
    length feature_dataset = length Demo.trainset ∧
    feature_dataset.*2 ≡ₚ (Demo.trainset).*2.
Proof.
  assert (Hperm : [2; 0; 1]
                  ≡ₚ seqZ 0 (trainset_size (init (len Demo.trainset) 0))).
  { apply (Permutation_cons_append [0; 1] 2). }
  split; [split; [reflexivity|split; [reflexivity|split; [intros xs; reflexivity|exact Hperm]]]|].
  apply (extract_features_with_all_inclusive_sampler Demo.env2
           (mkTrainerConfig false false) 0 [2; 0; 1] Demo.trainset "cut"
           (Demo.fresh_algorithm []) eq_refl eq_refl);
    [intros xs; reflexivity|exact Hperm].
Defined.

End AllInclusiveFacts.

(** ** FeatureDataset under a data loader *)

Section FeatureDatasetLoader.

Context {X Y D : Type} `{!Dataset (X * Y) D}.

Lemma fetch_FeatureDataset (d : D) (idxs : list Z) :
  fetch (mkFeatureDataset d) idxs = fetch d idxs.
Proof.
  induction idxs as [|i idxs IH]; [done|].
  cbn [fetch]. rewrite IH. cbn. unfold FeatureDataset_getitem. cbn.
  by destruct (ds_getitem d i) as [[x y]|e].
Qed.

(** X14: a data loader over [FeatureDataset(d)] is the data loader over [d]:
    for every batch size and sampler it is rejected in the same cases,
    yields the same batches in the same order, and fails at the same batches
    with the same exceptions.  So training on what [train] hands to the
    trainer sees exactly the data of the training set. *)
Theorem DataLoader_FeatureDataset (d : D) (batch_size : Z) (sampler : list Z) :
  DataLoader (mkFeatureDataset d) batch_size sampler
  = DataLoader d batch_size sampler.
Proof.
  unfold DataLoader. destruct (batch_size <=? 0); [done|]. f_equal.
  apply list_fmap_ext. intros _ idxs _. apply fetch_FeatureDataset.
Qed.

End FeatureDatasetLoader.

(** ** More on the store *)

Module StoreFrame.

Import Store.

(** X15: [load_gradients] of a list of tensors changes no object that
    exists: every location in use keeps its object, so the caller's
    sequence still has its value, as has every list stored earlier; the
    stored list is a new object of the same value; and [cut_layer_gradients]
    is not touched (a gradient loaded by an earlier [complete_train] stays
    loaded). *)
Theorem load_gradients_changes_no_object {Tensor : Type}
    (h : gmap loc (obj Tensor)) (self : Algorithm) (gradients : loc)
    (G : list Tensor) :
  list_at h gradients = Some G →
  ∃ h' self',
    load_gradients gradients (h, self) = Some (h', self') ∧
    (∀ l o, h !! l = Some o → h' !! l = Some o) ∧
    (∀ x G', list_at h x = Some G' → list_at h' x = Some G') ∧
    (gradients_list self' ∉ dom h) ∧
    list_at h' (gradients_list self') = Some G ∧
    cut_layer_gradients self' = cut_layer_gradients self.
Proof.
  intros HG.
  destruct (StoreFacts.deepcopy_spec h gradients G HG)
    as (h' & y & items' & Hrun & Hmono & Hy & Hlist & Hitems).
  exists h', (mkAlgorithm y (cut_layer_gradients self)).
  cbn. rewrite Hrun. cbn. split; [done|]. split; [done|]. split.
  { intros x G'. by apply StoreFacts.list_at_mono. }
  split; [done|]. split; [|done].
  apply StoreFacts.list_at_Some. exists items'. split; [done|].
  eapply Forall2_impl; [exact Hitems|]. by intros a d [_ ?].
Qed.

(** Witness of [load_gradients_changes_no_object]: the caller's list
    [[7, 8]] of [demo_heap]. *)
Lemma load_gradients_changes_no_object_witness :
  list_at demo_heap 2%nat = Some [7; 8] ∧
  ∃ h' self',
    load_gradients 2%nat (demo_heap, demo_algorithm) = Some (h', self') ∧
    (∀ l o, demo_heap !! l = Some o → h' !! l = Some o) ∧
    (∀ x G', list_at demo_heap x = Some G' → list_at h' x = Some G') ∧
    (gradients_list self' ∉ dom demo_heap) ∧
    list_at h' (gradients_list self') = Some [7; 8] ∧
    cut_layer_gradients self' = cut_layer_gradients demo_algorithm.
Proof.
  split; [vm_compute; reflexivity|].
  apply (load_gradients_changes_no_object demo_heap demo_algorithm 2%nat [7; 8]).
  vm_compute; reflexivity.
Defined.

End StoreFrame.

(** ** The HuggingFace data source *)

Module HuggingFaceFacts.

Import HuggingFace.

(** X16: with assert statements executed (Python's default),
    [get_train_set] never returns the training set, whatever the data
    source: on an empty training split it raises IndexError and prints
    nothing, otherwise it prints the first row and raises AssertionError. *)
Theorem get_train_set_never_returns {Row : Type} (self : DataSource Row)
    (stdout : list Row) :
  ∃ e stdout',
    get_train_set true self stdout = (Raise e, stdout') ∧
    (train_set self = [] → e = IndexError ∧ stdout' = stdout) ∧
    (∀ row rest, train_set self = row :: rest →
                 e = AssertionError ∧ stdout' = stdout ++ [row]).
Proof.
  unfold get_train_set. destruct (train_set self) as [|row rest].
  - exists IndexError, stdout. cbn. done.
  - exists AssertionError, (stdout ++ [row]). cbn. split; [done|].
    split; [done|]. by intros ?? [= <- <-].
Qed.

End HuggingFaceFacts.

(** ** The class list of the Kinetics data source *)

Module KineticsFacts.

Import Kinetics.

Implicit Types (s line content : string) (a c : Ascii.ascii)
  (classes acc : list string) (videos : list (string * json)).

(** Unfolding [+:+] on a string that starts with a character or is empty. *)
Ltac step_append :=
  repeat match goal with
         | |- context [String ?c ?s +:+ ?t] =>
             change (String c s +:+ t) with (String c (s +:+ t))
         | |- context [EmptyString +:+ ?t] =>
             change (EmptyString +:+ t) with t
         end.

Lemma append_assoc s1 s2 s3 : (s1 +:+ s2) +:+ s3 = s1 +:+ (s2 +:+ s3).
Proof. induction s1 as [|c s1 IH]; [done|]. step_append. by f_equal. Qed.

Lemma has_char_append a s1 s2 :
  has_char a (s1 +:+ s2) = has_char a s1 || has_char a s2.
Proof.
  induction s1 as [|c s1 IH]; [done|]. step_append. cbn. rewrite IH.
  by rewrite orb_assoc.
Qed.

(** [replace] leaves no occurrence of the character it replaces. *)
Lemma has_char_replace a (new : string) s :
  has_char a new = false → has_char a (replace a new s) = false.
Proof.
  intros Hnew. induction s as [|c s IH]; [done|]. cbn.
  destruct (Ascii.eqb c a) eqn:Hc.
  - by rewrite has_char_append, Hnew, IH.
  - cbn. by rewrite Hc, IH.
Qed.

Lemma replace_absent a (new : string) s :
  has_char a s = false → replace a new s = s.
Proof.
  induction s as [|c s IH]; [done|]. cbn.
  intros [Hc Hs]%orb_false_elim. rewrite Hc. by rewrite IH.
Qed.





Lemma not_in_true (name : string) classes :
  not_in name classes = true ↔ name ∉ classes.
Proof.
  unfold not_in. rewrite negb_true_iff, <- not_true_iff_false, existsb_exists.
  split.
  - intros Hno Hin. apply Hno. exists name. split; [by apply list_elem_of_In|].
    apply String.eqb_refl.
  - intros Hnot (x & Hx & Heq). apply String.eqb_eq in Heq as ->.
    by apply Hnot, list_elem_of_In.
Qed.

(** The loop over the keys of one information file. *)
Lemma add_video_classes_spec videos (keys : list string) : ∀ acc classes,
  add_video_classes videos keys acc = Ok classes →
  (NoDup acc → NoDup classes) ∧
  (∀ name, name ∈ classes ↔
           name ∈ acc ∨ ∃ key, key ∈ keys ∧ class_name_of videos key = Ok name).
Proof.
  induction keys as [|key keys IH]; intros acc classes Hrun.
  - cbn in Hrun. injection Hrun as <-. split; [done|].
    intros name. split; [by left|]. intros [?|(key & Hkey & _)]; [done|].
    by apply elem_of_nil in Hkey.
  - cbn [add_video_classes] in Hrun. unfold add_video_class in Hrun.
    destruct (class_name_of videos key) as [name0|e] eqn:Hname0; [|done].
    destruct (not_in name0 acc) eqn:Hnew.
    + apply IH in Hrun as [Hnd Hmem]. split.
      * intros Hacc. apply Hnd. apply NoDup_app. split; [done|]. split.
        -- intros x Hx Hx0. apply list_elem_of_singleton in Hx0 as ->.
           by apply not_in_true in Hnew.
        -- apply NoDup_singleton.
      * intros name. rewrite Hmem, elem_of_app, list_elem_of_singleton. split.
        -- intros [[? | ->] | (k & Hk & Hc)]; [by left| |].
           ++ right. exists key. split; [apply list_elem_of_here|done].
           ++ right. exists k. split; [by apply list_elem_of_further|done].
        -- intros [?|(k & Hk & Hc)]; [by left; left|].
           apply elem_of_cons in Hk as [->|Hk].
           ++ left. right. congruence.
           ++ right. by exists k.
    + apply IH in Hrun as [Hnd Hmem]. split; [done|].
      intros name. rewrite Hmem. split.
      * intros [?|(k & Hk & Hc)]; [by left|].
        right. exists k. split; [by apply list_elem_of_further|done].
      * intros [?|(k & Hk & Hc)]; [by left|].
        apply elem_of_cons in Hk as [->|Hk]; [|right; by exists k].
        left. apply not_true_iff_false in Hnew.
        destruct (decide (name0 ∈ acc)) as [Hin|Hnin]; [congruence|].
        by apply not_in_true in Hnin.
Qed.

Lemma add_file_classes_spec (f : info_file) acc classes :
  add_file_classes f acc = Ok classes →
  ∃ videos,
    f = Document (JObject videos) ∧
    (NoDup acc → NoDup classes) ∧
    (∀ name, name ∈ classes ↔
             name ∈ acc ∨ ∃ key, key ∈ videos.*1
                                 ∧ class_name_of videos key = Ok name).
Proof.
  unfold add_file_classes. destruct f as [| |[]]; try done. cbn.
  intros Hrun. exists fields. split; [done|]. by apply add_video_classes_spec.
Qed.

Lemma class_name_of_no_underscore videos (key name : string) :
  class_name_of videos key = Ok name → has_char "_" name = false.
Proof.
  unfold class_name_of.
  destruct (dict_get videos key) as [metadata|]; [|done].
  destruct (subscript metadata "annotations") as [annotations|]; [|done].
  destruct (subscript annotations "label") as [label|]; [|done].
  destruct label; try done. cbn. intros [= <-]. by apply has_char_replace.
Qed.






(** The write loop: it either writes every name, or stops at the first name
    that cannot be encoded, with the names before it written. *)
Lemma write_names_spec (encodable : string → bool) classes : ∀ content,
  (Forall (λ name, encodable name = true) classes
   ∧ write_names encodable classes content
     = (Ok tt, content +:+ written classes))
  ∨ (∃ before bad rest,
       classes = before ++ bad :: rest ∧
       Forall (λ name, encodable name = true) before ∧
       encodable bad = false ∧
       write_names encodable classes content
       = (Raise UnicodeEncodeError, content +:+ written before)).
Proof.
  assert (Hnil : ∀ content, content +:+ EmptyString = content).
  { induction content as [|c content IHc]; [done|]. step_append. by rewrite IHc. }
  induction classes as [|name classes IH]; intros content.
  - left. split; [constructor|]. cbn. by rewrite Hnil.
  - cbn [write_names]. destruct (encodable name) eqn:Hname.
    + destruct (IH (content +:+ name +:+ String LF EmptyString))
        as [[Hall Hrun]|(before & bad & rest & -> & Hdone & Hbad & Hrun)].
      * left. split; [by constructor|]. rewrite Hrun. f_equal.
        cbn [written]. by rewrite !append_assoc.
      * right. exists (name :: before), bad, rest.
        split; [done|]. split; [by constructor|]. split; [done|].
        rewrite Hrun. f_equal. cbn [written]. by rewrite !append_assoc.
    + right. exists [], name, classes. split; [done|]. split; [constructor|].
      split; [done|]. f_equal. cbn. by rewrite Hnil.
Qed.


(** X18: when there is no class file and [extract_data_classes] returns a
    class list, both information files are JSON objects; the list has no
    duplicates; it holds exactly the class names of the videos of the two
    files (the label of a video with every [_] replaced by a space), so no
    name in it contains [_]; every name could be encoded; and the class file
    now holds the names, one per line, while the information files are
    unchanged. *)
Theorem extract_data_classes_fresh (encodable : string → bool) (fs fs' : files)
    (classes : list string) :
  data_classes_file fs = None →
  extract_data_classes encodable fs = (Ok classes, fs') →
  ∃ train val,
    train_info_data fs = Some (Document (JObject train)) ∧
    val_info_data fs = Some (Document (JObject val)) ∧
    NoDup classes ∧
    (∀ name, name ∈ classes ↔
       ∃ key, (key ∈ train.*1 ∧ class_name_of train key = Ok name)
              ∨ (key ∈ val.*1 ∧ class_name_of val key = Ok name)) ∧
    Forall (λ name, has_char "_" name = false) classes ∧
    Forall (λ name, encodable name = true) classes ∧
    fs' = mkFiles (Some (Text (written classes))) (train_info_data fs)
            (val_info_data fs).
Proof.
  intros Hc. unfold extract_data_classes. rewrite Hc.
  destruct (train_info_data fs) as [ftrain|]; [|done].
  destruct (val_info_data fs) as [fval|]; [|done].
  destruct (add_file_classes ftrain []) as [classes1|e] eqn:H1; [|done].
  destruct (add_file_classes fval classes1) as [classes2|e] eqn:H2; [|done].
  destruct (write_names_spec encodable classes2 EmptyString)
    as [[Hall Hrun]|(before & bad & rest & _ & _ & _ & Hrun)];
    rewrite Hrun; step_append; [|done].
  intros [= <- <-].
  apply add_file_classes_spec in H1 as (train & -> & Hnd1 & Hmem1).
  apply add_file_classes_spec in H2 as (val & -> & Hnd2 & Hmem2).
  assert (Hmem : ∀ name, name ∈ classes2 ↔
       ∃ key, (key ∈ train.*1 ∧ class_name_of train key = Ok name)
              ∨ (key ∈ val.*1 ∧ class_name_of val key = Ok name)).
  { intros name. rewrite Hmem2, Hmem1. split.
    - intros [[Hnil|(key & ?)]|(key & ?)].
      + by apply elem_of_nil in Hnil.
      + exists key. by left.
      + exists key. by right.
    - intros (key & [?|?]); [left; right|right]; by exists key. }
  exists train, val. split; [done|]. split; [done|]. split.
  { apply Hnd2, Hnd1, NoDup_nil_2. }
  split; [done|]. split; [|done].
  apply Forall_forall. intros name (key & [[_ Hn]|[_ Hn]])%Hmem;
    by eapply class_name_of_no_underscore.
Qed.



(** Witness of [extract_data_classes_fresh]: the two information files of
    [demo_files]. *)
Lemma extract_data_classes_fresh_witness :
  let classes := ["air drumming"; "abseiling"; "zumba"] in
  let fs' := mkFiles (Some (Text (written classes))) (train_info_data demo_files)
               (val_info_data demo_files) in
  (data_classes_file demo_files = None ∧
   extract_data_classes any_text demo_files = (Ok classes, fs')) ∧
  ∃ train val,
    train_info_data demo_files = Some (Document (JObject train)) ∧
    val_info_data demo_files = Some (Document (JObject val)) ∧
    NoDup classes ∧
    (∀ name, name ∈ classes ↔
       ∃ key, (key ∈ train.*1 ∧ class_name_of train key = Ok name)
              ∨ (key ∈ val.*1 ∧ class_name_of val key = Ok name)) ∧
    Forall (λ name, has_char "_" name = false) classes ∧
    Forall (λ name, any_text name = true) classes ∧
    fs' = mkFiles (Some (Text (written classes))) (train_info_data demo_files)
            (val_info_data demo_files).
Proof.
  cbn zeta. split; [split; vm_compute; reflexivity|].
  apply (extract_data_classes_fresh any_text demo_files); vm_compute; reflexivity.
Defined.


(** A write that fails half-way, evaluated: under an ASCII encoding the
    second of three class names cannot be encoded; the call raises
    UnicodeEncodeError and leaves a class file with the first name only,
    which the next call returns as the class list. *)
Lemma partial_class_file_example :
  ∃ fs',
    extract_data_classes plain_ascii demo_files_accent
      = (Raise UnicodeEncodeError, fs') ∧
    data_classes_file fs' = Some (Text (written ["abseiling"])) ∧
    extract_data_classes plain_ascii fs' = (Ok ["abseiling"], fs').
Proof. eexists. split; [vm_compute; reflexivity|]. split; vm_compute; reflexivity. Qed.

End KineticsFacts.
